(** * WeatherBot: the per-user notification subsystem of [main.py]

    A shallow embedding of the settings store ([save_user_settings],
    [get_user_settings]), the scheduler's job table, the restart-time
    reconciliation ([restore_jobs]), the message handlers and the delivery
    pipeline ([send_daily_weather]), followed by the properties of the
    specification that concern them.

    Conventions of the embedding.
    - The [users] table, whose [user_id] is an INTEGER PRIMARY KEY, is a
      finite map from [Z] to rows; a NULL column is [None].
    - A [float] of Python is a finite double, which is a rational number,
      an infinite one, or NaN.  SQLite stores a NaN as NULL, so a REAL
      column holds a [real], a double that is not NaN, or NULL.  Python's
      truth test of a float is the comparison with zero.
    - Text is a [string] that holds the UTF-8 bytes of a [str].  On ASCII
      text [int] and the pattern of the router are written out.  On other
      text they depend on the Unicode tables of the runtime (which
      characters are decimal digits, which are white space); there the
      two functions are parameters of the embedding, [Py.Runtime].
    - The value of [zoneName] in an answer of TimezoneDB need not be a
      string: it is a [Py.value], of which the embedding keeps the text
      that is shown and the text that is stored.  The zone library that
      APScheduler consults is a parameter of the embedding, [tz_error].
    - A handler runs from start to end without interleaving with another
      one: the event loop is single threaded and the properties below are
      about one handler at a time.
    - sqlite3 itself is taken to succeed, but for the values that it
      cannot bind; the network collaborators (TimezoneDB, WeatherAPI,
      Gemini, gTTS, Telegram) may fail, and their answers are read from an
      environment [Env]. *)

From Stdlib Require Import ZArith QArith String Ascii List Bool Lia.
From stdpp Require Import base option list gmap strings pretty.
Import ListNotations.

Local Open Scope string_scope.
Local Open Scope Z_scope.

(** ** Numbers *)

(** A double that is not NaN: a finite one, which is a rational number, or
    an infinite one.  These are the values of a REAL column. *)
Inductive real :=
| Finite (q : Q)
| Infinite (negative : bool).

(** ** Python values *)

Module Py.

(** A [float]: a double, NaN included. *)
Inductive float :=
| Real (x : real)
| NaN.

(** The white space that [int] skips in ASCII text: TAB, LF, VT, FF, CR
    and the space. *)
Definition is_space (c : ascii) : bool :=
  let n := N_of_ascii c in
  ((9 <=? n)%N && (n <=? 13)%N) || (n =? 32)%N.

Definition is_digit (c : ascii) : bool :=
  let n := N_of_ascii c in (48 <=? n)%N && (n <=? 57)%N.

Definition digit_value (c : ascii) : Z := Z.of_N (N_of_ascii c) - 48.

Fixpoint lstrip (s : string) : string :=
  match s with
  | String c r => if is_space c then lstrip r else s
  | EmptyString => EmptyString
  end.

Fixpoint rstrip (s : string) : string :=
  match s with
  | EmptyString => EmptyString
  | String c r =>
      match rstrip r with
      | EmptyString => if is_space c then EmptyString else String c EmptyString
      | r' => String c r'
      end
  end.

Definition strip (s : string) : string := rstrip (lstrip s).

(** The digits of a decimal literal as [int] reads them: a single
    underscore is allowed between two digits.  [sep] tells that the
    previous character was not a digit. *)
Fixpoint digits (acc : Z) (sep : bool) (s : string) : option Z :=
  match s with
  | EmptyString => if sep then None else Some acc
  | String c r =>
      if is_digit c then digits (10 * acc + digit_value c) false r
      else if Ascii.eqb c "_" && negb sep then digits acc true r
      else None
  end.

(** [int(s)] in base ten for ASCII text; [None] stands for the
    [ValueError]. *)
Definition int_ascii (s : string) : option Z :=
  match strip s with
  | String "-" r => Z.opp <$> digits 0 true r
  | String "+" r => digits 0 true r
  | r => digits 0 true r
  end.

(** [s.isascii()] *)
Fixpoint isascii (s : string) : bool :=
  match s with
  | EmptyString => true
  | String c r => (N_of_ascii c <? 128)%N && isascii r
  end.

(** What the runtime does with text that is not ASCII, where the answer
    depends on its Unicode tables: [int(s)], with [None] for the
    [ValueError], and whether [re.search] finds the pattern
    [^\d{1,2}:\d{2}$] in the text. *)
Record Runtime := mkRuntime {
  int_other : string -> option Z;
  time_pattern_other : string -> bool;
}.

(** [int(s)] in base ten; [None] stands for the [ValueError]. *)
Definition int (rt : Runtime) (s : string) : option Z :=
  if isascii s then int_ascii s else int_other rt s.

(** A value that need not be a string: [None], a [str], or another value,
    of which the embedding keeps the text that an f-string shows and the
    text that SQLite stores for it in a TEXT column (a number is stored as
    its text; sqlite3 raises for a value that it cannot bind, which is
    [None] here). *)
Inductive value :=
| VNone
| VStr (s : string)
| VOther (shown : string) (stored : option string).

(** [f"{v}"] *)
Definition format (v : value) : string :=
  match v with
  | VNone => "None"
  | VStr s => s
  | VOther shown _ => shown
  end.

(** [s.split(sep)] for an ASCII separator of one character.  On the bytes
    of UTF-8 the pieces are those of the [str], since the byte of an ASCII
    character occurs in no other character. *)
Fixpoint split (sep : ascii) (s : string) : list string :=
  match s with
  | EmptyString => [EmptyString]
  | String c r =>
      if Ascii.eqb c sep then EmptyString :: split sep r
      else match split sep r with
           | p :: ps => String c p :: ps
           | [] => [String c EmptyString]
           end
  end.

(** [str(n)] for an integer. *)
Definition str (n : Z) : string := pretty n.

(** Truth value of a [str] or [None]: the empty string and [None] are
    false. *)
Definition truthy_str (o : option string) : bool :=
  match o with
  | Some (String _ _) => true
  | _ => false
  end.

(** Truth value of a [float] that was read from the store, or of
    [None]: zero and [None] are false. *)
Definition truthy_float (o : option real) : bool :=
  match o with
  | Some (Finite q) => negb (Qnum q =? 0)
  | Some (Infinite _) => true
  | None => false
  end.

End Py.

(** ** The settings store *)

(** One row of the table [users]; [user_id] is the key of the map. *)
Record Row := mkRow {
  latitude : option real;
  longitude : option real;
  notification_time : option string;
  timezone : option string;
}.

Abbreviation Store := (gmap Z Row).

(** The dictionary returned by [get_user_settings]: the four columns of
    the row, or the empty dictionary for an unknown user. *)
Definition Settings := option Row.

(** [settings.get(key)] for one of the four column names. *)
Definition dict_get {A} (field : Row -> option A) (settings : Settings) : option A :=
  settings ≫= field.

Definition get_user_settings (user_id : Z) (db : Store) : Settings := db !! user_id.

(** What SQLite stores in a REAL column for a [float] or [None]: a NaN is
    stored as NULL. *)
Definition sqlite_real (o : option Py.float) : option real :=
  match o with
  | Some (Py.Real x) => Some x
  | Some Py.NaN => None
  | None => None
  end.

(** [save_user_settings]: read the current row, take each argument that is
    not [None] and the stored value otherwise, and INSERT OR REPLACE. *)
Definition save_user_settings (user_id : Z) (lat lon : option Py.float)
    (time tz : option string) (db : Store) : Store :=
  let current := get_user_settings user_id db in
  let new_lat := if lat is Some _ then lat else Py.Real <$> dict_get latitude current in
  let new_lon := if lon is Some _ then lon else Py.Real <$> dict_get longitude current in
  let new_time := if time is Some _ then time else dict_get notification_time current in
  let new_tz := if tz is Some _ then tz else dict_get timezone current in
  <[user_id := mkRow (sqlite_real new_lat) (sqlite_real new_lon) new_time new_tz]> db.

(** ** The scheduler *)

(** The [Bot] object handed to the callback. *)
Definition Bot := N.

Inductive exn :=
| ValueError
| OtherException.

(** A cron trigger that fires daily at a wall-clock time of a zone. *)
Record CronTrigger := mkCron {
  cron_hour : Z;
  cron_minute : Z;
  cron_timezone : string;
}.

(** A job of the scheduler: [send_daily_weather] with its arguments. *)
Record Job := mkJob {
  job_id : string;
  job_trigger : CronTrigger;
  job_args : Bot * Z;
}.

(** [f"user_{user_id}"] *)
Definition user_job_id (user_id : Z) : string := "user_" +:+ Py.str user_id.

(** [astimezone] of APScheduler on a name: the zone library resolves it
    or raises, a [KeyError] for a name that it does not know (pytz and
    zoneinfo) or a [ValueError] for a name whose form it refuses
    (zoneinfo).  [tz_error] is the zone library: the exception for the
    name, if there is one. *)
Definition astimezone (tz_error : string -> option exn) (name : string) : exn + string :=
  match tz_error name with
  | None => inr name
  | Some e => inl e
  end.

(** APScheduler's constructor [CronTrigger(hour=, minute=, timezone=)].
    The zone comes first: a true [timezone] is resolved by [astimezone],
    and a false one ([None] or the empty string) is replaced by
    [localzone], the zone of the host.  Then the fields are compiled in
    the order hour, minute, and each raises [ValueError] when its value
    lies outside the range of the field (0-23 and 0-59). *)
Definition new_CronTrigger (tz_error : string -> option exn) (localzone : string)
    (hour minute : Z) (tz : option string) : exn + CronTrigger :=
  let zone := match tz with
              | Some (String c r) => astimezone tz_error (String c r)
              | _ => inr localzone
              end in
  match zone with
  | inl e => inl e
  | inr z =>
      if negb ((0 <=? hour) && (hour <=? 23)) then inl ValueError
      else if negb ((0 <=? minute) && (minute <=? 59)) then inl ValueError
      else inr (mkCron hour minute z)
  end.

Definition has_id (id : string) (j : Job) : bool := String.eqb (job_id j) id.

(** The job store replaces the entry that carries the id of [j]. *)
Fixpoint update_job (j : Job) (jobs : list Job) : list Job :=
  match jobs with
  | [] => []
  | k :: rest => if has_id (job_id j) k then j :: rest else k :: update_job j rest
  end.

(** [scheduler.add_job(..., id=..., replace_existing=True)] on a running
    scheduler: a job whose id is taken replaces the job that has it, a new
    id is added to the table. *)
Definition add_job (j : Job) (jobs : list Job) : list Job :=
  if existsb (has_id (job_id j)) jobs then update_job j jobs else jobs ++ [j].

(** [hour, minute = map(int, time_str.split(':'))]; [None] is the
    [ValueError] of [int] or of the unpacking. *)
Definition parse_time (rt : Py.Runtime) (time_str : string) : option (Z * Z) :=
  match Py.split ":" time_str with
  | [a; b] =>
      match Py.int rt a, Py.int rt b with
      | Some h, Some m => Some (h, m)
      | _, _ => None
      end
  | _ => None
  end.

(** ** The world of the process and its collaborators *)

(** A JSON object, as far as the bot looks into it. *)
Definition Dict := list (string * string).

(** The calls that leave the process, in the order they are made. *)
Inductive Call :=
| CallTimezoneDB (lat lon : Py.float)
| CallWeatherAPI (lat lon : option real)
| CallGemini (weather_data : Dict)
| CallGTTS (text : string)
| SendMessage (bot : Bot) (chat_id : Z) (text : string)
| SendAudio (bot : Bot) (chat_id : Z) (file : string)
| ReplyText (user_id : Z) (text : string).

Record World := mkWorld {
  db : Store;               (* weather_bot.db *)
  jobs : list Job;          (* the job table of the global [scheduler] *)
  files : gset string;      (* files of the working directory *)
  log : list string;        (* records written by [logging.error] *)
  trace : list Call;        (* calls made to the collaborators *)
}.

(** The runtime and what the collaborators answer.  The first argument of
    an answer is the number of calls made before it, so that the same
    request may be answered differently at different times.  [None] and
    [false] stand for an exception raised by the call.  The answer of
    TimezoneDB is the value of [zoneName] in its JSON object, when the
    object has that key.  The answer of WeatherAPI matters by its truth
    value only, and as the text handed to the model. *)
Record Env := mkEnv {
  app_bot : Bot;
  runtime : Py.Runtime;
  tz_error : string -> option exn;
  localzone : string;
  timezonedb : nat -> Py.float -> Py.float -> option (option Py.value);
  weatherapi : nat -> option real -> option real -> option Dict;
  gemini : nat -> Dict -> option string;
  gtts : nat -> string -> bool;
  telegram : nat -> Call -> bool;
}.

(** The zone library resolves the name. *)
Definition known_tz (env : Env) (name : string) : bool :=
  match tz_error env name with
  | None => true
  | Some _ => false
  end.

(** Computations that read and change the world and may raise. *)
Definition M (A : Type) : Type := World -> (exn + A) * World.

Definition ret {A} (a : A) : M A := fun w => (inr a, w).

Definition bind {A B} (m : M A) (k : A -> M B) : M B :=
  fun w => match m w with
           | (inr a, w1) => k a w1
           | (inl e, w1) => (inl e, w1)
           end.

Definition raise {A} (e : exn) : M A := fun w => (inl e, w).

(** [try: body except ... as e: handler e]; an exception of the handler
    is not caught again. *)
Definition try_except {A} (body : M A) (handler : exn -> M A) : M A :=
  fun w => match body w with
           | (inr a, w1) => (inr a, w1)
           | (inl e, w1) => handler e w1
           end.

Declare Scope py_scope.
Delimit Scope py_scope with py.
Notation "x <- m ; k" := (bind m (fun x => k))
  (at level 100, m at next level, right associativity) : py_scope.
Notation "m ;; k" := (bind m (fun _ => k))
  (at level 100, right associativity) : py_scope.
Local Open Scope py_scope.

Definition lift {A} (r : exn + A) : M A := fun w => (r, w).

Definition read_db : M Store := fun w => (inr (db w), w).

Definition write_db (f : Store -> Store) : M unit :=
  fun w => (inr tt, mkWorld (f (db w)) (jobs w) (files w) (log w) (trace w)).

Definition write_jobs (f : list Job -> list Job) : M unit :=
  fun w => (inr tt, mkWorld (db w) (f (jobs w)) (files w) (log w) (trace w)).

Definition write_files (f : gset string -> gset string) : M unit :=
  fun w => (inr tt, mkWorld (db w) (jobs w) (f (files w)) (log w) (trace w)).

Definition file_exists (file : string) : M bool :=
  fun w => (inr (bool_decide (file ∈ files w)), w).

Definition logging_error (msg : string) : M unit :=
  fun w => (inr tt, mkWorld (db w) (jobs w) (files w) (log w ++ [msg]) (trace w)).

(** Make a call: it is recorded, and its number is returned. *)
Definition call (c : Call) : M nat :=
  fun w => (inr (length (trace w)),
            mkWorld (db w) (jobs w) (files w) (log w) (trace w ++ [c])).

(** A call to the Telegram API, which raises when the API fails. *)
Definition telegram_call (env : Env) (c : Call) : M unit :=
  t <- call c;
  if telegram env t c then ret tt else raise OtherException.

Definition reply_text (env : Env) (user_id : Z) (text : string) : M unit :=
  telegram_call env (ReplyText user_id text).

(** [settings[key]]: a [KeyError] on the empty dictionary. *)
Definition subscript {A} (field : Row -> option A) (settings : Settings) : M (option A) :=
  match settings with
  | Some row => ret (field row)
  | None => raise OtherException
  end.

(** ** The collaborators, as [main.py] wraps them *)

Definition default_timezone : string := "Europe/Kiev".
Definition weather_file : string := "weather.mp3".
Definition fallback_description : string := "🌤️ Прогноз погоди на сьогодні: гарна погода!".

Definition log_timezone : string := "Помилка отримання часового поясу".
Definition log_weather : string := "Помилка отримання погоди".
Definition log_description : string := "Помилка генерації опису".
Definition log_delivery : string := "Помилка відправки прогнозу".
Definition log_handler : string := "Помилка".

Definition get_user_settings_m (user_id : Z) : M Settings :=
  d <- read_db; ret (get_user_settings user_id d).

Definition save_user_settings_m (user_id : Z) (lat lon : option Py.float)
    (time tz : option string) : M unit :=
  write_db (save_user_settings user_id lat lon time tz).

(** [save_user_settings] with a [timezone] that need not be a string:
    [None] is an argument that is not given, a string is stored, and
    another value is stored as the text that SQLite makes of it, or makes
    sqlite3 raise when it cannot be bound, before anything is written. *)
Definition save_user_settings_value (user_id : Z) (lat lon : option Py.float)
    (time : option string) (timezone : Py.value) : M unit :=
  match timezone with
  | Py.VNone => save_user_settings_m user_id lat lon time None
  | Py.VStr tz => save_user_settings_m user_id lat lon time (Some tz)
  | Py.VOther _ (Some text) => save_user_settings_m user_id lat lon time (Some text)
  | Py.VOther _ None => raise OtherException
  end.

(** [get_timezone]: the value of [zoneName] in the answer, the default
    when the answer has no such key, and the default again when the
    request fails. *)
Definition get_timezone (env : Env) (lat lon : Py.float) : M Py.value :=
  try_except
    (t <- call (CallTimezoneDB lat lon);
     match timezonedb env t lat lon with
     | Some data => ret (default (Py.VStr default_timezone) data)
     | None => raise OtherException
     end)
    (fun _ => logging_error log_timezone;; ret (Py.VStr default_timezone)).

(** [get_weather]: the JSON answer, or [None] after logging a failure. *)
Definition get_weather (env : Env) (lat lon : option real) : M (option Dict) :=
  try_except
    (t <- call (CallWeatherAPI lat lon);
     match weatherapi env t lat lon with
     | Some data => ret (Some data)
     | None => raise OtherException
     end)
    (fun _ => logging_error log_weather;; ret None).

(** [generate_weather_description]: the text of the model, or the fixed
    text after logging a failure. *)
Definition generate_weather_description (env : Env) (weather_data : Dict) : M string :=
  try_except
    (t <- call (CallGemini weather_data);
     match gemini env t weather_data with
     | Some text => ret text
     | None => raise OtherException
     end)
    (fun _ => logging_error log_description;; ret fallback_description).

(** [gTTS(text=description, lang='uk')] refuses an empty text. *)
Definition gTTS (text : string) : M string :=
  match text with
  | EmptyString => raise OtherException
  | _ => ret text
  end.

(** [tts.save(file)] opens the file for writing and then fetches the
    audio into it. *)
Definition tts_save (env : Env) (text file : string) : M unit :=
  write_files (fun fs => {[file]} ∪ fs);;
  t <- call (CallGTTS text);
  if gtts env t text then ret tt else raise OtherException.

(** [open(file, "rb")] *)
Definition open_rb (file : string) : M string :=
  present <- file_exists file;
  if present then ret file else raise OtherException.

(** [os.remove(file)] *)
Definition os_remove (file : string) : M unit :=
  present <- file_exists file;
  if present then write_files (fun fs => fs ∖ {[file]}) else raise OtherException.

Definition bot_send_message (env : Env) (bot : Bot) (chat_id : Z) (text : string) : M unit :=
  telegram_call env (SendMessage bot chat_id text).

Definition bot_send_audio (env : Env) (bot : Bot) (chat_id : Z) (audio : string) : M unit :=
  telegram_call env (SendAudio bot chat_id audio).

(** The truth value of a JSON answer or [None]. *)
Definition truthy_dict (o : option Dict) : bool :=
  match o with
  | Some (_ :: _) => true
  | _ => false
  end.

(** ** The delivery pipeline *)

Definition send_daily_weather (env : Env) (bot : Bot) (user_id : Z) : M unit :=
  try_except
    (settings <- get_user_settings_m user_id;
     if negb (Py.truthy_float (dict_get latitude settings))
        || negb (Py.truthy_float (dict_get longitude settings))
     then ret tt
     else
       lat <- subscript latitude settings;
       lon <- subscript longitude settings;
       weather_data <- get_weather env lat lon;
       if negb (truthy_dict weather_data) then ret tt
       else
         description <- generate_weather_description env (default [] weather_data);
         tts <- gTTS description;
         tts_save env tts weather_file;;
         bot_send_message env bot user_id description;;
         audio <- open_rb weather_file;
         bot_send_audio env bot user_id audio;;
         os_remove weather_file)
    (fun _ => logging_error log_delivery).

(** ** Reconciliation at process start *)

(** The rows of
    [SELECT user_id, notification_time, timezone FROM users
     WHERE notification_time IS NOT NULL].
    The job table does not depend on the order of the rows, since the ids
    of the jobs of two rows differ. *)
Definition select_scheduled (d : Store) : list (Z * Row) :=
  filter (fun r : Z * Row => is_Some (notification_time r.2)) (map_to_list d).

Definition scheduler_add_job (trigger : CronTrigger) (bot : Bot) (user_id : Z) : M unit :=
  write_jobs (add_job (mkJob (user_job_id user_id) trigger (bot, user_id))).

(** The body of the loop of [restore_jobs] for one row. *)
Definition restore_row (env : Env) (bot : Bot) (r : Z * Row) : M unit :=
  let user_id := r.1 in
  let time_str := notification_time r.2 in
  let timezone := timezone r.2 in
  if Py.truthy_str time_str && Py.truthy_str timezone then
    match parse_time (runtime env) (default EmptyString time_str) with
    | None => raise ValueError
    | Some (hour, minute) =>
        trigger <- lift (new_CronTrigger (tz_error env) (localzone env) hour minute timezone);
        scheduler_add_job trigger bot user_id
    end
  else ret tt.

Fixpoint for_each {A} (body : A -> M unit) (l : list A) : M unit :=
  match l with
  | [] => ret tt
  | a :: rest => body a;; for_each body rest
  end.

Definition restore_jobs (env : Env) (bot : Bot) : M unit :=
  d <- read_db;
  for_each (restore_row env bot) (select_scheduled d).

(** [setup_scheduler], run once by [post_init]; the scheduler is started
    with an empty job table. *)
Definition setup_scheduler (env : Env) : M unit :=
  restore_jobs env (app_bot env).

(** ** The handlers *)

Definition nl : string := String (ascii_of_N 10) EmptyString.

Definition msg_start : string :=
  "Привіт! Надішли своє місцезнаходження або вибери опцію з меню.".
Definition msg_send_location_first : string :=
  "🔍 Спочатку відправте своє місцезнаходження, щоб отримати прогноз.".
Definition msg_location_saved (timezone : string) : string :=
  "📍 Локацію збережено!" +:+ nl +:+ "Часовий пояс: " +:+ timezone +:+ nl
  +:+ "Тепер встановіть час сповіщень:".
Definition msg_enter_time : string :=
  "⏰ Введіть час у форматі HH:MM (наприклад 08:00):".
Definition msg_need_location : string := "❌ Спочатку вкажіть локацію!".
Definition msg_time_set (time_str : string) : string :=
  "✅ Сповіщення встановлено на " +:+ time_str +:+ " вашого часу!".
Definition msg_bad_format : string := "‼️ Невірний формат! Використовуйте HH:MM".
Definition msg_error : string := "‼️ Сталася помилка".

Definition button_time_setup : string := "Налаштувати сповіщення ⏰".
Definition button_forecast : string := "Отримати прогноз зараз 🌤️".

Definition start (env : Env) (user_id : Z) : M unit :=
  reply_text env user_id msg_start.

Definition handle_instant_forecast (env : Env) (user_id : Z) : M unit :=
  settings <- get_user_settings_m user_id;
  if Py.truthy_float (dict_get latitude settings)
     && Py.truthy_float (dict_get longitude settings)
  then
    lat <- subscript latitude settings;
    lon <- subscript longitude settings;
    weather_text <- get_weather env lat lon;
    send_daily_weather env (app_bot env) user_id
  else reply_text env user_id msg_send_location_first.

Definition handle_location (env : Env) (user_id : Z) (lat lon : Py.float) : M unit :=
  timezone <- get_timezone env lat lon;
  save_user_settings_value user_id (Some lat) (Some lon) None timezone;;
  reply_text env user_id (msg_location_saved (Py.format timezone)).

Definition handle_time_setup (env : Env) (user_id : Z) : M unit :=
  reply_text env user_id msg_enter_time.

Definition handle_time_input (env : Env) (user_id : Z) (time_str : string) : M unit :=
  try_except
    (match parse_time (runtime env) time_str with
     | None => raise ValueError
     | Some (hour, minute) =>
         settings <- get_user_settings_m user_id;
         if negb (Py.truthy_str (dict_get timezone settings)) then
           reply_text env user_id msg_need_location
         else
           tz <- subscript timezone settings;
           trigger <- lift (new_CronTrigger (tz_error env) (localzone env) hour minute tz);
           scheduler_add_job trigger (app_bot env) user_id;;
           save_user_settings_m user_id None None (Some time_str) None;;
           reply_text env user_id (msg_time_set time_str)
     end)
    (fun e =>
       match e with
       | ValueError => reply_text env user_id msg_bad_format
       | OtherException => logging_error log_handler;; reply_text env user_id msg_error
       end).

(** ** Routing of updates and the life of the process *)

(** [re.search(r'^\d{1,2}:\d{2}$', text)].  On ASCII text: one or two
    digits, a colon and two digits, possibly followed by one final
    newline.  On other text the runtime decides, whose [\d] takes every
    decimal digit of Unicode. *)
Definition hhmm (l : list ascii) : bool :=
  match l with
  | [h1; c; m1; m2] =>
      Py.is_digit h1 && Ascii.eqb c ":" && Py.is_digit m1 && Py.is_digit m2
  | [h1; h2; c; m1; m2] =>
      Py.is_digit h1 && Py.is_digit h2 && Ascii.eqb c ":"
      && Py.is_digit m1 && Py.is_digit m2
  | _ => false
  end.

Definition time_regex_ascii (text : string) : bool :=
  let l := list_ascii_of_string text in
  hhmm l ||
  match List.rev l with
  | c :: r => Ascii.eqb c (ascii_of_N 10) && hhmm (List.rev r)
  | [] => false
  end.

Definition time_regex (rt : Py.Runtime) (text : string) : bool :=
  if Py.isascii text then time_regex_ascii text else Py.time_pattern_other rt text.

Inductive Update :=
| Command (user_id : Z) (name : string)
| Location (user_id : Z) (lat lon : Py.float)
| Text (user_id : Z) (text : string).

(** The handlers in the order [main] registers them; the first one whose
    filter accepts the update handles it.  A text update is not a
    command. *)
Definition dispatch (env : Env) (upd : Update) : M unit :=
  match upd with
  | Command user_id name =>
      if String.eqb name "start" then start env user_id else ret tt
  | Location user_id lat lon => handle_location env user_id lat lon
  | Text user_id text =>
      if String.eqb text button_time_setup then handle_time_setup env user_id
      else if time_regex (runtime env) text then handle_time_input env user_id text
      else if String.eqb text button_forecast then handle_instant_forecast env user_id
      else ret tt
  end.

Inductive Event :=
| Incoming (upd : Update)      (* an update arrives *)
| Firing (id : string)         (* the trigger of the job [id] fires *)
| Restart.                     (* the process is stopped and started again *)

Definition find_job (id : string) (js : list Job) : option Job :=
  List.find (has_id id) js.

(** One event.  An exception that leaves a handler or a job is logged by
    the framework and the process goes on; an exception that leaves
    [setup_scheduler] ends the start of the process ([None]). *)
Definition step (env : Env) (ev : Event) (w : World) : option World :=
  match ev with
  | Incoming upd => Some (dispatch env upd w).2
  | Firing id =>
      match find_job id (jobs w) with
      | Some j => Some (send_daily_weather env (job_args j).1 (job_args j).2 w).2
      | None => Some w
      end
  | Restart =>
      match setup_scheduler env (mkWorld (db w) [] (files w) (log w) (trace w)) with
      | (inr _, w1) => Some w1
      | (inl _, _) => None
      end
  end.

Fixpoint run (env : Env) (evs : list Event) (w : World) : option World :=
  match evs with
  | [] => Some w
  | ev :: rest =>
      match step env ev w with
      | Some w1 => run env rest w1
      | None => None
      end
  end.

(** The world of the first start: an empty table and no job. *)
Definition initial_world : World := mkWorld ∅ [] ∅ [] [].

Definition reachable (env : Env) (w : World) : Prop :=
  exists evs, run env evs initial_world = Some w.

(** * The vocabulary of the properties *)

(** ** The store under a sequence of upserts *)









(** ** Worlds before and after a computation *)

(** Whatever its result, [m] takes a world to a world related by [R]. *)
Definition preserves (R : World -> World -> Prop) {A} (m : M A) : Prop :=
  forall w, R w (m w).2.

(** The world after one more call. *)
Definition called (c : Call) (w : World) : World :=
  mkWorld (db w) (jobs w) (files w) (log w) (trace w ++ [c]).

Definition logged (msg : string) (w : World) : World :=
  mkWorld (db w) (jobs w) (files w) (log w ++ [msg]) (trace w).


(** ** Jobs and the profiles they come from *)

(** The ids of the table are pairwise distinct, and each job carries the
    id of the user it is bound to. *)
Definition jobs_ok (js : list Job) : Prop :=
  NoDup (job_id <$> js) ∧ Forall (fun j => job_id j = user_job_id (job_args j).2) js.

Definition for_user (user_id : Z) (j : Job) : bool :=
  bool_decide ((job_args j).2 = user_id).

(** The jobs of the table that are bound to the user. *)
Definition jobs_of (user_id : Z) (js : list Job) : list Job :=
  List.filter (for_user user_id) js.

(** The job that reconciliation installs for a row: the row has a
    notification time and a zone, neither NULL nor empty, the time reads
    as [hour:minute], and the job fires at that time of that zone and is
    bound to the user of the row. *)
Definition scheduled_for (rt : Py.Runtime) (bot : Bot) (r : Z * Row) (j : Job) : Prop :=
  exists time_str tz hour minute,
    notification_time r.2 = Some time_str ∧ time_str ≠ EmptyString
    ∧ timezone r.2 = Some tz ∧ tz ≠ EmptyString
    ∧ parse_time rt time_str = Some (hour, minute)
    ∧ j = mkJob (user_job_id r.1) (mkCron hour minute tz) (bot, r.1).

(** A row that [CronTrigger] accepts: its time reads as an hour and a
    minute of the day and its zone is known. *)
Definition row_ok (env : Env) (row : Row) : Prop :=
  forall time_str tz,
    notification_time row = Some time_str -> time_str ≠ EmptyString ->
    timezone row = Some tz -> tz ≠ EmptyString ->
    known_tz env tz = true
    ∧ exists hour minute,
        parse_time (runtime env) time_str = Some (hour, minute)
        ∧ 0 <= hour <= 23 ∧ 0 <= minute <= 59.

Definition store_ok (env : Env) (d : Store) : Prop :=
  forall user_id row, d !! user_id = Some row -> row_ok env row.

(** The computation leaves the table in order. *)
Definition keeps_jobs_ok (w w' : World) : Prop := jobs_ok (jobs w) -> jobs_ok (jobs w').

(** ** What the handlers see and say *)

(** The messages by which a time input is refused. *)
Definition refusals : list string := [msg_need_location; msg_bad_format; msg_error].

(** Both coordinates of the profile pass the truth test of the pipeline. *)
Definition has_coordinates (user_id : Z) (w : World) : bool :=
  let settings := get_user_settings user_id (db w) in
  Py.truthy_float (dict_get latitude settings)
  && Py.truthy_float (dict_get longitude settings).

Definition stored_latitude (user_id : Z) (w : World) : option real :=
  dict_get latitude (get_user_settings user_id (db w)).

Definition stored_longitude (user_id : Z) (w : World) : option real :=
  dict_get longitude (get_user_settings user_id (db w)).

(** The world after the request of [get_weather] for the coordinates of
    the profile: the call is made, and its failure is logged. *)
Definition weather_requested (env : Env) (user_id : Z) (w : World) : World :=
  let lat := stored_latitude user_id w in
  let lon := stored_longitude user_id w in
  match weatherapi env (length (trace w)) lat lon with
  | Some _ => called (CallWeatherAPI lat lon) w
  | None => logged log_weather (called (CallWeatherAPI lat lon) w)
  end.

(** The calls that reach the user. *)
Definition to_user (c : Call) : bool :=
  match c with
  | SendMessage _ _ _ | SendAudio _ _ _ | ReplyText _ _ => true
  | _ => false
  end.

Definition messages (w : World) : list Call := List.filter to_user (trace w).

(** * Environments, stores and worlds of the scenarios *)

(** An environment in which every collaborator answers, and the events of
    a user who shares a location and then sets the time twice. *)
Definition no_unicode : Py.Runtime := {|
  Py.int_other := fun _ => None;
  Py.time_pattern_other := fun _ => false;
|}.

Definition env_fine : Env := {|
  app_bot := 1%N;
  runtime := no_unicode;
  tz_error := fun z => if String.eqb z "Europe/Kyiv" || String.eqb z "Europe/Kiev"
                          || String.eqb z "Europe/Warsaw"
                       then None else Some OtherException;
  localzone := "UTC";
  timezonedb := fun _ _ _ => Some (Some (Py.VStr "Europe/Kyiv"));
  weatherapi := fun _ _ _ => Some [("temp_c", "21")];
  gemini := fun _ _ => Some "Sunny";
  gtts := fun _ _ => true;
  telegram := fun _ _ => true;
|}.

Definition kyiv_lat : real := Finite (5045 # 100).
Definition kyiv_lon : real := Finite (3052 # 100).

Definition events_two_times : list Event :=
  [Incoming (Location 7 (Py.Real kyiv_lat) (Py.Real kyiv_lon));
   Incoming (Text 7 "08:00");
   Incoming (Text 7 "09:30")].

Definition world_two_times : World :=
  default initial_world (run env_fine events_two_times initial_world).

(** The profiles of a store from which the process starts: a user with a
    time and no zone, and a user with both. *)
Definition store_no_zone : Store :=
  {[ 7 := mkRow None None (Some "08:00") None ]}.

Definition store_empty_zone : Store :=
  {[ 7 := mkRow (Some kyiv_lat) (Some kyiv_lon) (Some "08:00") (Some EmptyString) ]}.

(** A user who travels: the zone of the second location differs from the
    zone of the first. *)
Definition warsaw_lat : real := Finite (5223 # 100).
Definition warsaw_lon : real := Finite (2101 # 100).

Definition env_travel : Env := {|
  app_bot := 1%N;
  runtime := no_unicode;
  tz_error := fun z => if String.eqb z "Europe/Kyiv" || String.eqb z "Europe/Warsaw"
                       then None else Some OtherException;
  localzone := "UTC";
  timezonedb := fun _ lat lon =>
    match lon with
    | Py.Real (Finite q) =>
        if Qeq_bool q (2101 # 100) then Some (Some (Py.VStr "Europe/Warsaw"))
        else Some (Some (Py.VStr "Europe/Kyiv"))
    | _ => Some (Some (Py.VStr "Europe/Kyiv"))
    end;
  weatherapi := fun _ _ _ => Some [("temp_c", "21")];
  gemini := fun _ _ => Some "Sunny";
  gtts := fun _ _ => true;
  telegram := fun _ _ => true;
|}.

Definition events_travel : list Event :=
  [Incoming (Location 7 (Py.Real kyiv_lat) (Py.Real kyiv_lon));
   Incoming (Text 7 "08:00");
   Incoming (Location 7 (Py.Real warsaw_lat) (Py.Real warsaw_lon))].

Definition world_before_restart : World :=
  default initial_world (run env_travel events_travel initial_world).

Definition world_after_restart : World :=
  default initial_world (step env_travel Restart world_before_restart).

Definition store_three : Store :=
  <[7 := mkRow (Some kyiv_lat) (Some kyiv_lon) (Some "08:00") (Some "Europe/Kyiv")]>
  (<[8 := mkRow None None (Some "21:15") None]>
  (<[9 := mkRow (Some warsaw_lat) (Some warsaw_lon) None (Some "Europe/Warsaw")]> ∅)).

Definition world_no_location : World :=
  mkWorld store_no_zone [] ∅ [] [].

(** The weather provider is down. *)
Definition env_no_weather : Env := {|
  app_bot := 1%N;
  runtime := no_unicode;
  tz_error := tz_error env_fine;
  localzone := "UTC";
  timezonedb := timezonedb env_fine;
  weatherapi := fun _ _ _ => None;
  gemini := gemini env_fine;
  gtts := gtts env_fine;
  telegram := telegram env_fine;
|}.

(** A user shares a location of latitude zero and sets a time; then
    the job of the user fires. *)
Definition events_equator : list Event :=
  [Incoming (Location 7 (Py.Real (Finite 0)) (Py.Real kyiv_lon)); Incoming (Text 7 "08:00")].

Definition world_equator : World :=
  default initial_world (run env_fine events_equator initial_world).

(** Telegram refuses the text message, as it does for a user who has
    blocked the bot. *)
Definition env_blocked : Env := {|
  app_bot := 1%N;
  runtime := no_unicode;
  tz_error := tz_error env_fine;
  localzone := "UTC";
  timezonedb := timezonedb env_fine;
  weatherapi := weatherapi env_fine;
  gemini := gemini env_fine;
  gtts := gtts env_fine;
  telegram := fun _ c => match c with SendMessage _ _ _ => false | _ => true end;
|}.

Definition world_delivered : World :=
  (send_daily_weather env_fine 1%N 7 world_two_times).2.

Definition world_blocked : World :=
  (send_daily_weather env_blocked 1%N 7 world_two_times).2.


Definition store_with_time : Store :=
  {[ 7 := mkRow (Some kyiv_lat) (Some kyiv_lon) (Some "08:00") (Some "Europe/Kyiv") ]}.




(** * The vocabulary of the further properties *)

(** The user an update comes from. *)
Definition update_user (upd : Update) : Z :=
  match upd with
  | Command user_id _ | Location user_id _ _ | Text user_id _ => user_id
  end.

(** The value that [get_timezone] returns in the world [w]. *)
Definition resolved_timezone (env : Env) (lat lon : Py.float) (w : World) : Py.value :=
  match timezonedb env (length (trace w)) lat lon with
  | Some (Some zone) => zone
  | _ => Py.VStr default_timezone
  end.

(** The argument that SQLite binds for the value, if it can bind it. *)
Definition bound (v : Py.value) : option (option string) :=
  match v with
  | Py.VNone => Some None
  | Py.VStr s => Some (Some s)
  | Py.VOther _ (Some text) => Some (Some text)
  | Py.VOther _ None => None
  end.

(** The time input passes every test of [handle_time_input]: the text
    reads as two integers, the user has a true zone that is known, and
    the hour and the minute are in range. *)
Definition accepted (env : Env) (user_id : Z) (time_str : string) (w : World) : bool :=
  match parse_time (runtime env) time_str,
        dict_get timezone (get_user_settings user_id (db w)) with
  | Some (hour, minute), Some tz =>
      Py.truthy_str (Some tz) && known_tz env tz
      && (0 <=? hour) && (hour <=? 23) && (0 <=? minute) && (minute <=? 59)
  | _, _ => false
  end.

(** The stored time, if any, reads as an hour and a minute of the day. *)
Definition time_valid (rt : Py.Runtime) (row : Row) : Prop :=
  forall time_str, notification_time row = Some time_str ->
    exists hour minute,
      parse_time rt time_str = Some (hour, minute)
      ∧ 0 <= hour <= 23 ∧ 0 <= minute <= 59.

(** A profile with a time has a zone. *)
Definition timed_has_zone (row : Row) : Prop :=
  is_Some (notification_time row) -> is_Some (timezone row).

Definition store_sound (rt : Py.Runtime) (d : Store) : Prop :=
  forall user_id row, d !! user_id = Some row -> timed_has_zone row ∧ time_valid rt row.

(** The job is bound to the bot of the application and to a user whose
    stored time reads as the hour and the minute of the job, and it
    carries the id of that user. *)
Definition in_step (env : Env) (d : Store) (j : Job) : Prop :=
  exists row time_str,
    d !! (job_args j).2 = Some row
    ∧ notification_time row = Some time_str
    ∧ parse_time (runtime env) time_str
      = Some (cron_hour (job_trigger j), cron_minute (job_trigger j))
    ∧ (job_args j).1 = app_bot env
    ∧ job_id j = user_job_id (job_args j).2.

(** The text that the pipeline sends: the text of the model, or the fixed
    text when the model fails. *)
Definition narration (env : Env) (t : nat) (weather_data : Dict) : string :=
  default fallback_description (gemini env t weather_data).

(** The computation has left the store and the job table alone and has
    only added to the calls and to the log. *)
Definition untouched (w w' : World) : Prop :=
  db w' = db w ∧ jobs w' = jobs w
  ∧ trace w `prefix_of` trace w' ∧ log w `prefix_of` log w'.

(** The model is down. *)
Definition env_no_model : Env := {|
  app_bot := 1%N;
  runtime := no_unicode;
  tz_error := tz_error env_fine;
  localzone := "UTC";
  timezonedb := timezonedb env_fine;
  weatherapi := weatherapi env_fine;
  gemini := fun _ _ => None;
  gtts := gtts env_fine;
  telegram := telegram env_fine;
|}.

(** The weather provider answers with an empty object. *)
Definition env_empty_weather : Env := {|
  app_bot := 1%N;
  runtime := no_unicode;
  tz_error := tz_error env_fine;
  localzone := "UTC";
  timezonedb := timezonedb env_fine;
  weatherapi := fun _ _ _ => Some [];
  gemini := gemini env_fine;
  gtts := gtts env_fine;
  telegram := telegram env_fine;
|}.

(** A runtime whose tables hold the Arabic-Indic digits, as far as the
    text [١٢:٣٠] needs them. *)
Definition arabic_indic : Py.Runtime := {|
  Py.int_other := fun s => if String.eqb s "١٢" then Some 12
                           else if String.eqb s "٣٠" then Some 30
                           else None;
  Py.time_pattern_other := fun s => String.eqb s "١٢:٣٠";
|}.

Definition env_arabic : Env := {|
  app_bot := 1%N;
  runtime := arabic_indic;
  tz_error := tz_error env_fine;
  localzone := "UTC";
  timezonedb := timezonedb env_fine;
  weatherapi := weatherapi env_fine;
  gemini := gemini env_fine;
  gtts := gtts env_fine;
  telegram := telegram env_fine;
|}.

(** TimezoneDB answers with a [zoneName] that is [null]. *)
Definition env_null_zone : Env := {|
  app_bot := 1%N;
  runtime := no_unicode;
  tz_error := tz_error env_fine;
  localzone := "UTC";
  timezonedb := fun _ _ _ => Some (Some Py.VNone);
  weatherapi := weatherapi env_fine;
  gemini := gemini env_fine;
  gtts := gtts env_fine;
  telegram := telegram env_fine;
|}.

(** The events that may write the store: a location, and a time input
    that the router takes for a time and that passes every test. *)
Definition writes_store (env : Env) (ev : Event) (w : World) : bool :=
  match ev with
  | Incoming (Location _ _ _) => true
  | Incoming (Text user_id text) =>
      time_regex (runtime env) text && accepted env user_id text w
  | _ => false
  end.

(** The events that may write the job table: a restart, and such a time
    input. *)
Definition writes_jobs (env : Env) (ev : Event) (w : World) : bool :=
  match ev with
  | Restart => true
  | Incoming (Text user_id text) =>
      time_regex (runtime env) text && accepted env user_id text w
  | _ => false
  end.

(** The argument of an upsert when it is given, the other value
    otherwise. *)
Definition or_else {A} (new old : option A) : option A :=
  match new with
  | Some _ => new
  | None => old
  end.

(** * Properties *)

(** ** The embedding on concrete values *)

Example py_int_08 rt : Py.int rt "08" = Some 8.
Proof. reflexivity. Qed.

Example py_int_padded rt : Py.int rt " +1_0 " = Some 10.
Proof. reflexivity. Qed.

Example py_int_bad rt :
  Py.int rt "1__0" = None /\ Py.int rt EmptyString = None /\ Py.int rt "- 1" = None.
Proof. repeat split; reflexivity. Qed.

(** The separators of files and of records are no white space for [int]
    on ASCII text, and text that is not ASCII is left to the runtime. *)
Example py_int_separator rt :
  Py.int rt (String (ascii_of_N 28) "5") = None
  /\ Py.int rt (String (ascii_of_N 11) "5") = Some 5
  /\ Py.int rt (String (ascii_of_N 217) (String (ascii_of_N 161) EmptyString))
     = Py.int_other rt (String (ascii_of_N 217) (String (ascii_of_N 161) EmptyString)).
Proof. repeat split; reflexivity. Qed.

Example py_split_time : Py.split ":" "25:99" = ["25"; "99"].
Proof. reflexivity. Qed.

Example py_split_many : Py.split ":" "1::2" = ["1"; EmptyString; "2"].
Proof. reflexivity. Qed.

Example parse_time_0800 rt : parse_time rt "08:00" = Some (8, 0).
Proof. reflexivity. Qed.

Example parse_time_2599 rt : parse_time rt "25:99" = Some (25, 99).
Proof. reflexivity. Qed.

Example parse_time_three rt : parse_time rt "1:2:3" = None.
Proof. reflexivity. Qed.

Example user_job_id_42 : user_job_id 42 = "user_42".
Proof. reflexivity. Qed.

Example time_regex_examples rt :
  time_regex rt "25:99" = true /\ time_regex rt "8:00" = true
  /\ time_regex rt "08:00" = true /\ time_regex rt "8:0" = false
  /\ time_regex rt "008:00" = false /\ time_regex rt "ab:cd" = false.
Proof. repeat split; reflexivity. Qed.

(** ** Text that the router takes for a time *)

Lemma is_digit_cases c :
  Py.is_digit c = true ->
  In c ["0"; "1"; "2"; "3"; "4"; "5"; "6"; "7"; "8"; "9"]%char.
Proof.
  destruct c as [[] [] [] [] [] [] [] []]; intros H;
    first [discriminate H | simpl; tauto].
Qed.

Ltac each_digit H :=
  apply is_digit_cases in H; simpl in H;
  repeat (destruct H as [<-|H]; [reflexivity|]); destruct H.

Lemma digit_value_range d : Py.is_digit d = true -> 0 <= Py.digit_value d <= 9.
Proof.
  intros H. apply is_digit_cases in H. simpl in H.
  repeat (destruct H as [<-|H]; [vm_compute; split; discriminate|]). destruct H.
Qed.

Lemma digit_not_colon d : Py.is_digit d = true -> Ascii.eqb d ":" = false.
Proof. intros H. each_digit H. Qed.

Lemma int_one_digit rt d :
  Py.is_digit d = true -> Py.int rt (String d EmptyString) = Some (Py.digit_value d).
Proof. intros H. each_digit H. Qed.

Lemma int_two_digits rt d1 d2 :
  Py.is_digit d1 = true -> Py.is_digit d2 = true ->
  Py.int rt (String d1 (String d2 EmptyString))
  = Some (10 * Py.digit_value d1 + Py.digit_value d2).
Proof.
  intros H1 H2. apply is_digit_cases in H1. simpl in H1.
  repeat (destruct H1 as [<-|H1]; [each_digit H2|]). destruct H1.
Qed.

Lemma int_two_digits_newline rt d1 d2 :
  Py.is_digit d1 = true -> Py.is_digit d2 = true ->
  Py.int rt (String d1 (String d2 nl))
  = Some (10 * Py.digit_value d1 + Py.digit_value d2).
Proof.
  intros H1 H2. apply is_digit_cases in H1. simpl in H1.
  repeat (destruct H1 as [<-|H1]; [each_digit H2|]). destruct H1.
Qed.

Lemma hhmm_length l : hhmm l = true -> (length l = 4 ∨ length l = 5)%nat.
Proof.
  destruct l as [|a [|b [|c [|d [|e [|f l]]]]]]; simpl; try discriminate; auto.
Qed.

Lemma time_regex_length text :
  time_regex_ascii text = true -> (length (list_ascii_of_string text) <= 6)%nat.
Proof.
  unfold time_regex_ascii. intros H. apply orb_true_iff in H as [H|H].
  - apply hhmm_length in H. lia.
  - destruct (List.rev (list_ascii_of_string text)) as [|c r] eqn:Hr; [discriminate|].
    apply andb_true_iff in H as [_ H]. apply hhmm_length in H.
    rewrite length_rev in H.
    assert (length (List.rev (list_ascii_of_string text)) = S (length r)) as Hl
      by (by rewrite Hr).
    rewrite length_rev in Hl. lia.
Qed.

Lemma newline_not_colon : Ascii.eqb (ascii_of_N 10) ":" = false.
Proof. reflexivity. Qed.

Ltac split_conjunctions :=
  repeat match goal with
         | H : _ && _ = true |- _ => apply andb_true_iff in H as [? ?]
         | H : Ascii.eqb _ _ = true |- _ => apply Ascii.eqb_eq in H; subst
         end.

Ltac read_time :=
  unfold parse_time; simpl (Py.split _ _);
  rewrite ?digit_not_colon by assumption;
  rewrite ?Ascii.eqb_refl; fold nl;
  rewrite ?int_one_digit, ?int_two_digits, ?int_two_digits_newline by assumption;
  eexists; eexists; split; [reflexivity|];
  repeat match goal with
         | H : Py.is_digit _ = true |- _ => apply digit_value_range in H
         end; lia.

(** Every ASCII text that the router hands to [handle_time_input] reads
    as an hour and a minute, both below one hundred. *)
Lemma time_regex_parses rt text :
  Py.isascii text = true ->
  time_regex rt text = true ->
  exists hour minute,
    parse_time rt text = Some (hour, minute) ∧ 0 <= hour <= 99 ∧ 0 <= minute <= 99.
Proof.
  unfold time_regex. intros -> H. pose proof (time_regex_length text H) as Hlen.
  destruct text as [|c1 [|c2 [|c3 [|c4 [|c5 [|c6 [|c7 text]]]]]]];
    simpl in Hlen; try lia; unfold time_regex_ascii in H; simpl in H;
    rewrite ?andb_false_r, ?orb_false_r in H; try discriminate H.
  - split_conjunctions. read_time.
  - apply orb_true_iff in H as [H|H]; split_conjunctions.
    + read_time.
    + read_time.
  - split_conjunctions. read_time.
Qed.

(** ** The settings store *)

(** A value that was read from a REAL column is stored as it is. *)
Lemma sqlite_real_read (o : option real) : sqlite_real (Py.Real <$> o) = o.
Proof. by destruct o. Qed.

Lemma save_lookup_same user_id lat lon time tz d :
  get_user_settings user_id (save_user_settings user_id lat lon time tz d)
  = Some (mkRow
      (match lat with
       | Some v => sqlite_real (Some v)
       | None => dict_get latitude (get_user_settings user_id d)
       end)
      (match lon with
       | Some v => sqlite_real (Some v)
       | None => dict_get longitude (get_user_settings user_id d)
       end)
      (if time is Some _ then time else dict_get notification_time (get_user_settings user_id d))
      (if tz is Some _ then tz else dict_get timezone (get_user_settings user_id d))).
Proof.
  unfold save_user_settings, get_user_settings. rewrite lookup_insert_eq.
  destruct lat, lon; simpl; by rewrite ?sqlite_real_read.
Qed.

Lemma save_lookup_other user_id other lat lon time tz d :
  other ≠ user_id ->
  get_user_settings other (save_user_settings user_id lat lon time tz d)
  = get_user_settings other d.
Proof.
  intros Hne. unfold save_user_settings, get_user_settings.
  by rewrite lookup_insert_ne.
Qed.







(** C3. The upsert is field-wise: after [save_user_settings], each field
    of the user's profile is the argument when one is supplied (as SQLite
    stores it: a coordinate that is NaN is stored as NULL) and the stored
    value when the argument is [None]; the profiles of the other users
    are the stored ones; and, in particular, an upsert of latitude and
    longitude alone leaves [notification_time] and [timezone] as they
    were. *)
Theorem save_user_settings_field_wise user_id lat lon time tz d :
  let before := get_user_settings user_id d in
  let after := get_user_settings user_id (save_user_settings user_id lat lon time tz d) in
  dict_get latitude after
    = match lat with
      | Some v => sqlite_real (Some v)
      | None => dict_get latitude before
      end
  ∧ dict_get longitude after
    = match lon with
      | Some v => sqlite_real (Some v)
      | None => dict_get longitude before
      end
  ∧ dict_get notification_time after
    = match time with Some v => Some v | None => dict_get notification_time before end
  ∧ dict_get timezone after
    = match tz with Some v => Some v | None => dict_get timezone before end
  ∧ (forall other, other ≠ user_id ->
       get_user_settings other (save_user_settings user_id lat lon time tz d)
       = get_user_settings other d)
  ∧ (forall la lo,
       let coords := get_user_settings user_id
                       (save_user_settings user_id (Some la) (Some lo) None None d) in
       dict_get notification_time coords = dict_get notification_time before
       ∧ dict_get timezone coords = dict_get timezone before
       ∧ dict_get latitude coords = sqlite_real (Some la)
       ∧ dict_get longitude coords = sqlite_real (Some lo)).
Proof.
  cbv zeta. rewrite save_lookup_same. simpl.
  repeat split.
  - by destruct time.
  - by destruct tz.
  - intros other Hne. by apply save_lookup_other.
  - by rewrite save_lookup_same.
  - by rewrite save_lookup_same.
  - by rewrite save_lookup_same.
  - by rewrite save_lookup_same.
Qed.

Lemma save_user_settings_field_wise_witness :
  get_user_settings 7
    (save_user_settings 7 (Some (Py.Real warsaw_lat)) (Some (Py.Real warsaw_lon)) None None store_with_time)
  = Some (mkRow (Some warsaw_lat) (Some warsaw_lon) (Some "08:00") (Some "Europe/Kyiv"))
  ∧ get_user_settings 8
      (save_user_settings 7 (Some (Py.Real warsaw_lat)) (Some (Py.Real warsaw_lon)) None None store_with_time)
    = get_user_settings 8 store_with_time.
Proof.
  destruct (save_user_settings_field_wise 7 (Some (Py.Real warsaw_lat)) (Some (Py.Real warsaw_lon)) None None
              store_with_time) as (_ & _ & _ & _ & Hother & _).
  split; [reflexivity|]. apply Hother. discriminate.
Defined.



(** ** Relating the world before and after a computation *)

Section Preserves.
Variable R : World -> World -> Prop.
Hypothesis R_refl : forall w, R w w.
Hypothesis R_trans : forall w1 w2 w3, R w1 w2 -> R w2 w3 -> R w1 w3.

Lemma preserves_ret {A} (a : A) : preserves R (ret a).
Proof. intros w. apply R_refl. Qed.

Lemma preserves_raise {A} (e : exn) : preserves R (@raise A e).
Proof. intros w. apply R_refl. Qed.

Lemma preserves_lift {A} (r : exn + A) : preserves R (lift r).
Proof. intros w. apply R_refl. Qed.

Lemma preserves_same {A} (m : M A) : (forall w, (m w).2 = w) -> preserves R m.
Proof. intros Hm w. rewrite Hm. apply R_refl. Qed.

Lemma preserves_bind {A B} (m : M A) (k : A -> M B) :
  preserves R m -> (forall a, preserves R (k a)) -> preserves R (bind m k).
Proof.
  intros Hm Hk w. unfold bind. specialize (Hm w).
  destruct (m w) as [[e|a] w1]; simpl in *; [done|].
  eapply R_trans; [exact Hm|apply Hk].
Qed.

Lemma preserves_try_except {A} (body : M A) (handler : exn -> M A) :
  preserves R body -> (forall e, preserves R (handler e)) ->
  preserves R (try_except body handler).
Proof.
  intros Hb Hh w. unfold try_except. specialize (Hb w).
  destruct (body w) as [[e|a] w1]; simpl in *; [|done].
  eapply R_trans; [exact Hb|apply Hh].
Qed.

Lemma preserves_for_each {A} (body : A -> M unit) (l : list A) :
  (forall a, preserves R (body a)) -> preserves R (for_each body l).
Proof.
  intros Hb. induction l as [|a l IH]; simpl.
  - apply preserves_ret.
  - apply preserves_bind; [apply Hb|intros _; exact IH].
Qed.

Lemma preserves_read_db : preserves R read_db.
Proof. by apply preserves_same. Qed.

Lemma preserves_file_exists file : preserves R (file_exists file).
Proof. by apply preserves_same. Qed.

Lemma preserves_subscript {A} (field : Row -> option A) settings :
  preserves R (subscript field settings).
Proof. destruct settings; [apply preserves_ret|apply preserves_raise]. Qed.

Lemma preserves_gTTS text : preserves R (gTTS text).
Proof. destruct text; [apply preserves_raise|apply preserves_ret]. Qed.

(** The writes of the world that [R] has to allow. *)
Hypothesis R_call : forall c, preserves R (call c).
Hypothesis R_log : forall msg, preserves R (logging_error msg).
Hypothesis R_files : forall f, preserves R (write_files f).
Hypothesis R_save : forall user_id lat lon time tz,
  preserves R (save_user_settings_m user_id lat lon time tz).
Hypothesis R_add_job : forall trigger bot user_id,
  preserves R (scheduler_add_job trigger bot user_id).

Lemma preserves_telegram_call env c : preserves R (telegram_call env c).
Proof.
  apply preserves_bind; [apply R_call|intros t].
  destruct (telegram env t c); [apply preserves_ret|apply preserves_raise].
Qed.

Lemma preserves_get_user_settings_m user_id : preserves R (get_user_settings_m user_id).
Proof. by apply preserves_same. Qed.

Lemma preserves_get_timezone env lat lon : preserves R (get_timezone env lat lon).
Proof.
  apply preserves_try_except.
  - apply preserves_bind; [apply R_call|intros t].
    destruct (timezonedb env t lat lon); [apply preserves_ret|apply preserves_raise].
  - intros _. apply preserves_bind; [apply R_log|intros _; apply preserves_ret].
Qed.

Lemma preserves_get_weather env lat lon : preserves R (get_weather env lat lon).
Proof.
  apply preserves_try_except.
  - apply preserves_bind; [apply R_call|intros t].
    destruct (weatherapi env t lat lon); [apply preserves_ret|apply preserves_raise].
  - intros _. apply preserves_bind; [apply R_log|intros _; apply preserves_ret].
Qed.

Lemma preserves_generate_weather_description env data :
  preserves R (generate_weather_description env data).
Proof.
  apply preserves_try_except.
  - apply preserves_bind; [apply R_call|intros t].
    destruct (gemini env t data); [apply preserves_ret|apply preserves_raise].
  - intros _. apply preserves_bind; [apply R_log|intros _; apply preserves_ret].
Qed.

Lemma preserves_tts_save env text file : preserves R (tts_save env text file).
Proof.
  apply preserves_bind; [apply R_files|intros _].
  apply preserves_bind; [apply R_call|intros t].
  destruct (gtts env t text); [apply preserves_ret|apply preserves_raise].
Qed.

Lemma preserves_open_rb file : preserves R (open_rb file).
Proof.
  apply preserves_bind; [apply preserves_file_exists|intros b].
  destruct b; [apply preserves_ret|apply preserves_raise].
Qed.

Lemma preserves_os_remove file : preserves R (os_remove file).
Proof.
  apply preserves_bind; [apply preserves_file_exists|intros b].
  destruct b; [apply R_files|apply preserves_raise].
Qed.

Lemma preserves_send_daily_weather env bot user_id :
  preserves R (send_daily_weather env bot user_id).
Proof.
  apply preserves_try_except; [|intros _; apply R_log].
  apply preserves_bind; [apply preserves_get_user_settings_m|intros settings].
  destruct (_ || _); [apply preserves_ret|].
  apply preserves_bind; [apply preserves_subscript|intros lat].
  apply preserves_bind; [apply preserves_subscript|intros lon].
  apply preserves_bind; [apply preserves_get_weather|intros data].
  destruct (negb _); [apply preserves_ret|].
  apply preserves_bind; [apply preserves_generate_weather_description|intros text].
  apply preserves_bind; [apply preserves_gTTS|intros tts].
  apply preserves_bind; [apply preserves_tts_save|intros _].
  apply preserves_bind; [apply preserves_telegram_call|intros _].
  apply preserves_bind; [apply preserves_open_rb|intros audio].
  apply preserves_bind; [apply preserves_telegram_call|intros _].
  apply preserves_os_remove.
Qed.

Lemma preserves_restore_row env bot r : preserves R (restore_row env bot r).
Proof.
  unfold restore_row. destruct (_ && _); [|apply preserves_ret].
  destruct (parse_time _ _) as [[hour minute]|]; [|apply preserves_raise].
  apply preserves_bind; [apply preserves_lift|intros trigger].
  apply R_add_job.
Qed.

Lemma preserves_restore_jobs env bot : preserves R (restore_jobs env bot).
Proof.
  apply preserves_bind; [apply preserves_read_db|intros d].
  apply preserves_for_each. intros r. apply preserves_restore_row.
Qed.

Lemma preserves_handle_instant_forecast env user_id :
  preserves R (handle_instant_forecast env user_id).
Proof.
  apply preserves_bind; [apply preserves_get_user_settings_m|intros settings].
  destruct (_ && _); [|apply preserves_telegram_call].
  apply preserves_bind; [apply preserves_subscript|intros lat].
  apply preserves_bind; [apply preserves_subscript|intros lon].
  apply preserves_bind; [apply preserves_get_weather|intros _].
  apply preserves_send_daily_weather.
Qed.

Lemma preserves_handle_location env user_id lat lon :
  preserves R (handle_location env user_id lat lon).
Proof.
  apply preserves_bind; [apply preserves_get_timezone|intros tz].
  apply preserves_bind; [|intros _; apply preserves_telegram_call].
  destruct tz as [|zone|shown [text|]]; simpl;
    [apply R_save|apply R_save|apply R_save|apply preserves_raise].
Qed.

Lemma preserves_handle_time_input env user_id time_str :
  preserves R (handle_time_input env user_id time_str).
Proof.
  apply preserves_try_except.
  - destruct (parse_time _ _) as [[hour minute]|]; [|apply preserves_raise].
    apply preserves_bind; [apply preserves_get_user_settings_m|intros settings].
    destruct (negb _); [apply preserves_telegram_call|].
    apply preserves_bind; [apply preserves_subscript|intros tz].
    apply preserves_bind; [apply preserves_lift|intros trigger].
    apply preserves_bind; [apply R_add_job|intros _].
    apply preserves_bind; [apply R_save|intros _].
    apply preserves_telegram_call.
  - intros [|]; [apply preserves_telegram_call|].
    apply preserves_bind; [apply R_log|intros _; apply preserves_telegram_call].
Qed.

Lemma preserves_dispatch env upd : preserves R (dispatch env upd).
Proof.
  destruct upd as [user_id name|user_id lat lon|user_id text]; simpl.
  - destruct (String.eqb _ _); [apply preserves_telegram_call|apply preserves_ret].
  - apply preserves_handle_location.
  - destruct (String.eqb _ _); [apply preserves_telegram_call|].
    destruct (time_regex _); [apply preserves_handle_time_input|].
    destruct (String.eqb _ _); [apply preserves_handle_instant_forecast|].
    apply preserves_ret.
Qed.

End Preserves.

(** ** The job table *)

Lemma has_id_true id j : has_id id j = true <-> job_id j = id.
Proof. unfold has_id. apply String.eqb_eq. Qed.

Lemma has_id_false id j : has_id id j = false <-> job_id j ≠ id.
Proof. unfold has_id. apply String.eqb_neq. Qed.

Lemma existsb_has_id id js : existsb (has_id id) js = true <-> id ∈ job_id <$> js.
Proof.
  rewrite existsb_exists, list_elem_of_fmap. split.
  - intros (j & Hin & Hid). exists j. split.
    + symmetry. by apply has_id_true.
    + by apply list_elem_of_In.
  - intros (j & -> & Hin). exists j. split.
    + by apply list_elem_of_In.
    + by apply has_id_true.
Qed.

Lemma update_job_ids j js : job_id <$> update_job j js = job_id <$> js.
Proof.
  induction js as [|k js IH]; [done|]. simpl update_job.
  destruct (has_id (job_id j) k) eqn:Hk; rewrite !fmap_cons.
  - apply has_id_true in Hk. by rewrite Hk.
  - by rewrite IH.
Qed.

Lemma add_job_NoDup j js : NoDup (job_id <$> js) -> NoDup (job_id <$> add_job j js).
Proof.
  intros Hnd. unfold add_job.
  destruct (existsb (has_id (job_id j)) js) eqn:Hex.
  - by rewrite update_job_ids.
  - rewrite fmap_app. simpl. apply NoDup_app. split; [done|]. split.
    + intros id Hin Hin'. apply list_elem_of_singleton in Hin'. subst id.
      apply existsb_has_id in Hin. congruence.
    + apply NoDup_singleton.
Qed.

Lemma elem_of_update_job j js k :
  job_id j ∈ job_id <$> js -> NoDup (job_id <$> js) ->
  k ∈ update_job j js <-> k = j ∨ (k ∈ js ∧ job_id k ≠ job_id j).
Proof.
  induction js as [|k0 js IH]; simpl; intros Hin Hnd.
  - by apply elem_of_nil in Hin.
  - apply NoDup_cons in Hnd as [Hk0 Hnd].
    destruct (has_id (job_id j) k0) eqn:Hid.
    + apply has_id_true in Hid. rewrite !elem_of_cons. split.
      * intros [->|Hk]; [by left|]. right. split; [by right|].
        intros Heq. apply Hk0. rewrite Hid, <- Heq.
        apply list_elem_of_fmap. by exists k.
      * intros [->|[[->|Hk] Hne]]; [by left|done|by right].
    + apply has_id_false in Hid.
      apply elem_of_cons in Hin as [Heq|Hin]; [by symmetry in Heq|].
      rewrite !elem_of_cons, (IH Hin Hnd). split.
      * intros [->|[->|[Hk Hne]]]; [|by left|].
        -- right. split; [by left|done].
        -- right. split; [by right|done].
      * intros [->|[[->|Hk] Hne]]; [by right; left|by left|].
        right. right. done.
Qed.

Lemma elem_of_add_job j js k :
  NoDup (job_id <$> js) ->
  k ∈ add_job j js <-> k = j ∨ (k ∈ js ∧ job_id k ≠ job_id j).
Proof.
  intros Hnd. unfold add_job.
  destruct (existsb (has_id (job_id j)) js) eqn:Hex.
  - apply elem_of_update_job; [|done]. by apply existsb_has_id.
  - rewrite elem_of_app, list_elem_of_singleton. split.
    + intros [Hk| ->]; [|by left]. right. split; [done|].
      intros Heq. assert (existsb (has_id (job_id j)) js = true); [|congruence].
      apply existsb_has_id. rewrite <- Heq. apply list_elem_of_fmap. by exists k.
    + intros [->|[Hk _]]; [by right|by left].
Qed.

Lemma jobs_ok_nil : jobs_ok [].
Proof. split; [apply NoDup_nil_2|apply Forall_nil_2]. Qed.

Lemma jobs_ok_add_job trigger bot user_id js :
  jobs_ok js -> jobs_ok (add_job (mkJob (user_job_id user_id) trigger (bot, user_id)) js).
Proof.
  intros [Hnd Hall]. split; [by apply add_job_NoDup|].
  apply Forall_forall. intros k Hk.
  apply elem_of_add_job in Hk; [|done].
  destruct Hk as [->|[Hk _]]; [done|].
  rewrite Forall_forall in Hall. by apply Hall.
Qed.

Lemma user_job_id_inj : Inj (=) (=) user_job_id.
Proof.
  intros u1 u2 Heq. unfold user_job_id, Py.str in Heq.
  apply (inj (String.app "user_")) in Heq. by apply (inj pretty) in Heq.
Qed.

Lemma filter_at_most_one {A} (P : A -> bool) (l : list A) :
  (forall i j x y, l !! i = Some x -> l !! j = Some y ->
     P x = true -> P y = true -> i = j) ->
  (length (List.filter P l) <= 1)%nat.
Proof.
  induction l as [|a l IH]; intros Huniq; simpl; [lia|].
  destruct (P a) eqn:Ha; simpl.
  - assert (List.filter P l = []) as ->; [|simpl; lia].
    destruct (List.filter P l) as [|b r] eqn:Hf; [done|].
    assert (In b (List.filter P l)) as Hb by (rewrite Hf; by left).
    apply filter_In in Hb as [Hb Hpb].
    apply list_elem_of_In, list_elem_of_lookup in Hb as [i Hi].
    specialize (Huniq 0%nat (S i) a b eq_refl Hi Ha Hpb). lia.
  - apply IH. intros i j x y Hi Hj Hx Hy.
    specialize (Huniq (S i) (S j) x y Hi Hj Hx Hy). lia.
Qed.

Lemma jobs_ok_at_most_one user_id js :
  jobs_ok js -> (length (jobs_of user_id js) <= 1)%nat.
Proof.
  intros [Hnd Hall]. apply filter_at_most_one.
  intros i j x y Hi Hj Hx Hy.
  unfold for_user in *. apply bool_decide_eq_true in Hx, Hy.
  rewrite Forall_forall in Hall.
  assert (job_id x = job_id y) as Hid.
  { rewrite (Hall x), (Hall y); [congruence| |].
    - apply list_elem_of_lookup. by exists j.
    - apply list_elem_of_lookup. by exists i. }
  eapply NoDup_lookup; [exact Hnd| |].
  - rewrite list_lookup_fmap, Hi. done.
  - rewrite list_lookup_fmap, Hj. simpl. by rewrite Hid.
Qed.

(** ** The handlers, step by step *)

Lemma telegram_call_eq env c w :
  telegram_call env c w
  = (if telegram env (length (trace w)) c then inr tt else inl OtherException,
     mkWorld (db w) (jobs w) (files w) (log w) (trace w ++ [c])).
Proof.
  unfold telegram_call, bind, call.
  by destruct (telegram env (length (trace w)) c).
Qed.

Lemma known_tz_true env tz : known_tz env tz = true -> tz_error env tz = None.
Proof. unfold known_tz. by destruct (tz_error env tz). Qed.

Lemma handle_time_input_scheduled env user_id time_str w hour minute tz :
  parse_time (runtime env) time_str = Some (hour, minute) ->
  dict_get timezone (get_user_settings user_id (db w)) = Some tz ->
  tz ≠ EmptyString ->
  known_tz env tz = true ->
  0 <= hour <= 23 -> 0 <= minute <= 59 ->
  let w' := (handle_time_input env user_id time_str w).2 in
  jobs w' = add_job (mkJob (user_job_id user_id) (mkCron hour minute tz)
                       (app_bot env, user_id)) (jobs w)
  ∧ db w' = save_user_settings user_id None None (Some time_str) None (db w).
Proof.
  intros Hparse Htz Hne Hknown Hh Hm.
  unfold handle_time_input, try_except, bind, get_user_settings_m, read_db, ret.
  rewrite Hparse. simpl.
  unfold dict_get in Htz.
  destruct (get_user_settings user_id (db w)) as [row|] eqn:Hrow; [|done].
  simpl in Htz. simpl. rewrite Htz.
  destruct tz as [|c r]; [done|]. simpl.
  unfold new_CronTrigger, astimezone. rewrite (known_tz_true _ _ Hknown).
  assert ((0 <=? hour) && (hour <=? 23) = true) as -> by lia.
  assert ((0 <=? minute) && (minute <=? 59) = true) as -> by lia.
  simpl. unfold reply_text. rewrite !telegram_call_eq. simpl.
  destruct (telegram env _ _); simpl; [done|].
  by rewrite telegram_call_eq.
Qed.

(** ** One job per user *)

(** The side conditions of the lemmas of [Preserves]: each write of the
    world is looked at on its own. *)
Ltac solve_writes lem :=
  unfold preserves; intros; simpl in *; eauto using lem.

Lemma dispatch_jobs_ok env upd w :
  jobs_ok (jobs w) -> jobs_ok (jobs (dispatch env upd w).2).
Proof.
  revert w. apply (preserves_dispatch keeps_jobs_ok); unfold keeps_jobs_ok;
    solve_writes jobs_ok_add_job.
Qed.

Lemma send_daily_weather_jobs_ok env bot user_id w :
  jobs_ok (jobs w) -> jobs_ok (jobs (send_daily_weather env bot user_id w).2).
Proof.
  revert w. apply (preserves_send_daily_weather keeps_jobs_ok);
    unfold keeps_jobs_ok; solve_writes jobs_ok_add_job.
Qed.

Lemma restore_jobs_jobs_ok env bot w :
  jobs_ok (jobs w) -> jobs_ok (jobs (restore_jobs env bot w).2).
Proof.
  revert w. apply (preserves_restore_jobs keeps_jobs_ok); unfold keeps_jobs_ok;
    solve_writes jobs_ok_add_job.
Qed.

Lemma step_jobs_ok env ev w w' :
  step env ev w = Some w' -> jobs_ok (jobs w) -> jobs_ok (jobs w').
Proof.
  destruct ev as [upd|id|]; simpl.
  - intros [= <-]. apply dispatch_jobs_ok.
  - destruct (find_job id (jobs w)) as [j|]; intros [= <-]; [|done].
    apply send_daily_weather_jobs_ok.
  - unfold setup_scheduler.
    pose proof (restore_jobs_jobs_ok env (app_bot env)
                  (mkWorld (db w) [] (files w) (log w) (trace w)) jobs_ok_nil) as Hok.
    destruct (restore_jobs _ _ _) as [[e|u] w1]; [done|].
    by intros [= <-] _.
Qed.

Lemma run_jobs_ok env evs w w' :
  run env evs w = Some w' -> jobs_ok (jobs w) -> jobs_ok (jobs w').
Proof.
  revert w. induction evs as [|ev evs IH]; simpl; intros w.
  - by intros [= <-].
  - destruct (step env ev w) as [w1|] eqn:Hstep; [|done].
    intros Hrun Hok. eapply IH; [exact Hrun|]. by eapply step_jobs_ok.
Qed.

Lemma reachable_jobs_ok env w : reachable env w -> jobs_ok (jobs w).
Proof. intros [evs Hrun]. eapply run_jobs_ok; [exact Hrun|apply jobs_ok_nil]. Qed.

Lemma jobs_of_add_job trigger bot user_id js :
  jobs_ok js ->
  jobs_of user_id (add_job (mkJob (user_job_id user_id) trigger (bot, user_id)) js)
  = [mkJob (user_job_id user_id) trigger (bot, user_id)].
Proof.
  intros Hok. set (j := mkJob _ _ _).
  pose proof (jobs_ok_at_most_one user_id _ (jobs_ok_add_job trigger bot user_id js Hok)) as Hlen.
  fold j in Hlen.
  assert (In j (jobs_of user_id (add_job j js))) as Hin.
  { apply filter_In. split.
    - apply list_elem_of_In, elem_of_add_job; [apply Hok|by left].
    - unfold for_user. by apply bool_decide_eq_true. }
  destruct (jobs_of user_id (add_job j js)) as [|k [|k' r]]; simpl in *.
  - done.
  - by destruct Hin as [->|[]].
  - lia.
Qed.



(** ** Reconciliation *)

Lemma truthy_str_true o : Py.truthy_str o = true <-> exists s, o = Some s ∧ s ≠ EmptyString.
Proof.
  destruct o as [[|c r]|]; simpl; split; try done.
  - intros (s & [= <-] & Hne). done.
  - intros _. by eexists.
  - intros (s & ? & _). done.
Qed.

Lemma scheduled_for_unique rt bot r j1 j2 :
  scheduled_for rt bot r j1 -> scheduled_for rt bot r j2 -> j1 = j2.
Proof.
  intros (t1 & z1 & h1 & m1 & Ht1 & _ & Hz1 & _ & Hp1 & ->)
         (t2 & z2 & h2 & m2 & Ht2 & _ & Hz2 & _ & Hp2 & ->).
  congruence.
Qed.

(** What the body of the loop does with an accepted row. *)
Lemma restore_row_eq env bot r w :
  row_ok env r.2 ->
  (exists j, scheduled_for (runtime env) bot r j
     ∧ restore_row env bot r w
       = (inr tt, mkWorld (db w) (add_job j (jobs w)) (files w) (log w) (trace w)))
  ∨ ((forall j, ¬ scheduled_for (runtime env) bot r j) ∧ restore_row env bot r w = (inr tt, w)).
Proof.
  intros Hok. unfold restore_row.
  destruct (Py.truthy_str (notification_time r.2)) eqn:Ht;
    [destruct (Py.truthy_str (timezone r.2)) eqn:Hz|]; simpl.
  - apply truthy_str_true in Ht as (ts & Ht & Hts).
    apply truthy_str_true in Hz as (z & Hz & Hzne).
    destruct (Hok ts z Ht Hts Hz Hzne) as (Hknown & hour & minute & Hparse & Hh & Hm).
    left. exists (mkJob (user_job_id r.1) (mkCron hour minute z) (bot, r.1)). split.
    + by exists ts, z, hour, minute.
    + rewrite Ht, Hz. simpl. rewrite Hparse.
      unfold new_CronTrigger, astimezone, bind, lift.
      destruct z as [|c z']; [done|]. rewrite (known_tz_true _ _ Hknown).
      assert ((0 <=? hour) && (hour <=? 23) = true) as -> by lia.
      assert ((0 <=? minute) && (minute <=? 59) = true) as -> by lia.
      done.
  - right. split; [|done].
    intros j (ts & z & h & m & _ & _ & Hz' & Hzne & _).
    assert (Py.truthy_str (timezone r.2) = true); [|congruence].
    apply truthy_str_true. by exists z.
  - right. split; [|done].
    intros j (ts & z & h & m & Ht' & Htne & _).
    assert (Py.truthy_str (notification_time r.2) = true); [|congruence].
    apply truthy_str_true. by exists ts.
Qed.

(** The loop over rows of distinct users whose rows are accepted: it ends
    without an exception, touches nothing but the job table, and the table
    then holds the jobs of the rows and the earlier jobs of other ids. *)
Lemma for_each_restore_row env bot l w :
  NoDup l.*1 ->
  Forall (fun r => row_ok env r.2) l ->
  NoDup (job_id <$> jobs w) ->
  exists js,
    for_each (restore_row env bot) l w
    = (inr tt, mkWorld (db w) js (files w) (log w) (trace w))
    ∧ NoDup (job_id <$> js)
    ∧ forall j, j ∈ js <->
        (exists r, r ∈ l ∧ scheduled_for (runtime env) bot r j)
        ∨ (j ∈ jobs w ∧ forall r k, r ∈ l -> scheduled_for (runtime env) bot r k -> job_id j ≠ job_id k).
Proof.
  revert w. induction l as [|r l IH]; intros w Hnd Hall Hjs; simpl.
  - exists (jobs w). split; [by destruct w|]. split; [done|].
    intros j. split.
    + intros Hj. right. split; [done|]. intros r k Hr. by apply elem_of_nil in Hr.
    + intros [(r & Hr & _)|[Hj _]]; [by apply elem_of_nil in Hr|done].
  - rewrite fmap_cons in Hnd. apply NoDup_cons in Hnd as [Hr Hnd].
    apply Forall_cons in Hall as [Hrow Hall].
    assert (forall r' k k', r' ∈ l -> scheduled_for (runtime env) bot r k ->
              scheduled_for (runtime env) bot r' k' -> job_id k ≠ job_id k') as Hfresh.
    { intros r' k k' Hr' (? & ? & ? & ? & _ & _ & _ & _ & _ & ->)
                       (? & ? & ? & ? & _ & _ & _ & _ & _ & ->). simpl.
      intros Heq. apply user_job_id_inj in Heq. apply Hr. rewrite Heq.
      apply list_elem_of_fmap. by exists r'. }
    unfold bind at 1.
    destruct (restore_row_eq env bot r w Hrow) as [(j0 & Hj0 & ->)|[Hnone ->]].
    + destruct (IH (mkWorld (db w) (add_job j0 (jobs w)) (files w) (log w) (trace w))
                  Hnd Hall) as (js & Heq & Hnd' & Hin).
      { simpl. by apply add_job_NoDup. }
      exists js. split; [exact Heq|]. split; [done|].
      intros j. rewrite Hin. simpl. rewrite (elem_of_add_job _ _ _ Hjs). split.
      * intros [(r' & Hr' & Hs)|[[->|[Hj Hne]] Hother]].
        -- left. exists r'. split; [by right|done].
        -- left. exists r. split; [by left|done].
        -- right. split; [done|]. intros r' k Hr' Hk.
           apply elem_of_cons in Hr' as [->|Hr'].
           ++ by rewrite (scheduled_for_unique _ _ _ _ _ Hk Hj0).
           ++ by eapply Hother.
      * intros [(r' & Hr' & Hs)|[Hj Hother]].
        -- apply elem_of_cons in Hr' as [->|Hr'].
           ++ right. rewrite (scheduled_for_unique _ _ _ _ _ Hs Hj0). split; [by left|].
              intros r' k Hr' Hk. by eapply Hfresh.
           ++ left. by exists r'.
        -- right. split.
           ++ right. split; [done|]. eapply Hother; [by left|done].
           ++ intros r' k Hr' Hk. eapply Hother; [by right|done].
    + destruct (IH w Hnd Hall Hjs) as (js & Heq & Hnd' & Hin).
      exists js. split; [exact Heq|]. split; [done|].
      intros j. rewrite Hin. split.
      * intros [(r' & Hr' & Hs)|[Hj Hother]].
        -- left. exists r'. split; [by right|done].
        -- right. split; [done|]. intros r' k Hr' Hk.
           apply elem_of_cons in Hr' as [->|Hr']; [by apply Hnone in Hk|].
           by eapply Hother.
      * intros [(r' & Hr' & Hs)|[Hj Hother]].
        -- apply elem_of_cons in Hr' as [->|Hr']; [by apply Hnone in Hs|].
           left. by exists r'.
        -- right. split; [done|]. intros r' k Hr' Hk. eapply Hother; [by right|done].
Qed.

Lemma select_scheduled_rows d r :
  r ∈ select_scheduled d <-> d !! r.1 = Some r.2 ∧ is_Some (notification_time r.2).
Proof.
  unfold select_scheduled. rewrite list_elem_of_filter, elem_of_map_to_list'.
  tauto.
Qed.

Lemma select_scheduled_NoDup d : NoDup (select_scheduled d).*1.
Proof.
  apply (sublist_NoDup _ (map_to_list d).*1).
  - apply NoDup_fst_map_to_list.
  - apply fmap_sublist, sublist_filter.
Qed.

(** C1, as stated, fails in three ways.  A profile with a time and no
    zone is skipped, but nothing is logged.  A profile whose zone is the
    empty string has both columns non-null, and no job is installed for
    it.  And after a user has set a time and then shared a location of
    another zone, the job of the running process keeps the old zone while
    a restart installs the job with the stored, new zone: the job set
    after the restart differs from the one before. *)
Lemma restore_jobs_not_as_claimed :
  setup_scheduler env_fine (mkWorld store_no_zone [] ∅ [] [])
    = (inr tt, mkWorld store_no_zone [] ∅ [] [])
  ∧ setup_scheduler env_fine (mkWorld store_empty_zone [] ∅ [] [])
    = (inr tt, mkWorld store_empty_zone [] ∅ [] [])
  ∧ run env_travel events_travel initial_world = Some world_before_restart
  ∧ step env_travel Restart world_before_restart = Some world_after_restart
  ∧ jobs world_before_restart = [mkJob "user_7" (mkCron 8 0 "Europe/Kyiv") (1%N, 7)]
  ∧ jobs world_after_restart = [mkJob "user_7" (mkCron 8 0 "Europe/Warsaw") (1%N, 7)].
Proof. repeat split; vm_compute; reflexivity. Qed.

(** C1, amended.  Started on a store whose rows [CronTrigger] accepts,
    reconciliation ends without an exception and changes nothing but the
    job table; nothing is logged.  The table it builds has one job per id
    and holds precisely the jobs of the profiles whose notification time
    and zone are both neither NULL nor empty, each with the stored hour,
    minute and zone and bound to the bot and the user of the profile.  A
    profile with a time and no zone gets no job.  Whenever the table before
    the restart held precisely the jobs of the stored profiles, the table
    after the restart has the same members. *)
Theorem restore_jobs_rebuilds env d fs lg tr :
  store_ok env d ->
  exists js,
    setup_scheduler env (mkWorld d [] fs lg tr) = (inr tt, mkWorld d js fs lg tr)
    ∧ NoDup (job_id <$> js)
    ∧ (forall j, j ∈ js <->
         exists user_id row, d !! user_id = Some row
                             ∧ scheduled_for (runtime env) (app_bot env) (user_id, row) j)
    ∧ (forall user_id row, d !! user_id = Some row ->
         is_Some (notification_time row) -> timezone row = None ->
         jobs_of user_id js = [])
    ∧ (forall before : list Job,
         (forall j, j ∈ before <->
            exists user_id row, d !! user_id = Some row
                                ∧ scheduled_for (runtime env) (app_bot env) (user_id, row) j) ->
         forall j, j ∈ before <-> j ∈ js).
Proof.
  intros Hok. unfold setup_scheduler, restore_jobs, bind, read_db. simpl.
  destruct (for_each_restore_row env (app_bot env) (select_scheduled d)
              (mkWorld d [] fs lg tr)) as (js & Heq & Hnd & Hin).
  { apply select_scheduled_NoDup. }
  { apply Forall_forall. intros r Hr. apply select_scheduled_rows in Hr as [Hr _].
    by eapply Hok. }
  { simpl. apply NoDup_nil_2. }
  simpl in *.
  assert (forall j, j ∈ js <->
            exists user_id row, d !! user_id = Some row
                                ∧ scheduled_for (runtime env) (app_bot env) (user_id, row) j) as Hjs.
  { intros j. rewrite Hin. split.
    - intros [(r & Hr & Hs)|[Hj _]]; [|by apply elem_of_nil in Hj].
      apply select_scheduled_rows in Hr as [Hr _].
      exists r.1, r.2. split; [done|]. by destruct r.
    - intros (user_id & row & Hrow & Hs). left. exists (user_id, row).
      split; [|done]. apply select_scheduled_rows. split; [done|].
      destruct Hs as (ts & ? & ? & ? & Hts & _). simpl in *. by rewrite Hts. }
  exists js. split; [exact Heq|]. split; [exact Hnd|]. split; [exact Hjs|]. split.
  - intros user_id row Hrow _ Hnone. unfold jobs_of.
    destruct (List.filter (for_user user_id) js) as [|k rest] eqn:Hf; [done|].
    assert (In k (List.filter (for_user user_id) js)) as Hk by (rewrite Hf; by left).
    apply filter_In in Hk as [Hk Hu].
    apply list_elem_of_In, Hjs in Hk as (u' & row' & Hrow' & Hs).
    destruct Hs as (ts & z & h & m & _ & _ & Hz & _ & _ & ->).
    unfold for_user in Hu. apply bool_decide_eq_true in Hu. simpl in *. subst u'.
    congruence.
  - intros before Hbefore j. by rewrite Hbefore, Hjs.
Qed.

Lemma store_three_ok : store_ok env_fine store_three.
Proof.
  intros user_id row Hrow. unfold store_three in Hrow.
  apply lookup_insert_Some in Hrow as [[_ <-]|[_ Hrow]].
  { intros ts tz Hts _ Htz _. simpl in *. simplify_eq.
    split; [reflexivity|]. exists 8, 0. split; [reflexivity|lia]. }
  apply lookup_insert_Some in Hrow as [[_ <-]|[_ Hrow]].
  { intros ts tz _ _ Htz _. discriminate. }
  apply lookup_insert_Some in Hrow as [[_ <-]|[_ Hrow]].
  { intros ts tz Hts. discriminate. }
  by rewrite lookup_empty in Hrow.
Defined.

Lemma restore_jobs_rebuilds_witness :
  store_ok env_fine store_three
  ∧ exists js,
      setup_scheduler env_fine (mkWorld store_three [] ∅ [] [])
      = (inr tt, mkWorld store_three js ∅ [] [])
      ∧ NoDup (job_id <$> js)
      ∧ (forall j, j ∈ js <->
           exists user_id row, store_three !! user_id = Some row
                               ∧ scheduled_for (runtime env_fine) (app_bot env_fine) (user_id, row) j)
      ∧ (forall user_id row, store_three !! user_id = Some row ->
           is_Some (notification_time row) -> timezone row = None ->
           jobs_of user_id js = [])
      ∧ (forall before : list Job,
           (forall j, j ∈ before <->
              exists user_id row, store_three !! user_id = Some row
                                  ∧ scheduled_for (runtime env_fine) (app_bot env_fine) (user_id, row) j) ->
           forall j, j ∈ before <-> j ∈ js).
Proof.
  split; [exact store_three_ok|].
  exact (restore_jobs_rebuilds env_fine store_three ∅ [] [] store_three_ok).
Defined.

Example restore_three :
  jobs (setup_scheduler env_fine (mkWorld store_three [] ∅ [] [])).2
  = [mkJob "user_7" (mkCron 8 0 "Europe/Kyiv") (1%N, 7)].
Proof. vm_compute. reflexivity. Qed.

(** ** Time input that is refused *)

(** A time input for a user without a true zone: the reply asks for the
    location; when that reply itself fails the failure is logged and the
    general error message is tried. *)
Lemma handle_time_input_no_zone env user_id time_str w hour minute :
  parse_time (runtime env) time_str = Some (hour, minute) ->
  Py.truthy_str (dict_get timezone (get_user_settings user_id (db w))) = false ->
  handle_time_input env user_id time_str w
  = if telegram env (length (trace w)) (ReplyText user_id msg_need_location)
    then (inr tt, called (ReplyText user_id msg_need_location) w)
    else reply_text env user_id msg_error
           (logged log_handler (called (ReplyText user_id msg_need_location) w)).
Proof.
  intros Hparse Hz.
  unfold handle_time_input, try_except, bind, get_user_settings_m, read_db, ret.
  rewrite Hparse. simpl. rewrite Hz. simpl.
  unfold reply_text at 1. rewrite telegram_call_eq.
  by destruct (telegram env _ _).
Qed.

(** A time input whose hour or minute [CronTrigger] refuses, for a user
    with a true zone. *)
Lemma handle_time_input_refused env user_id time_str w hour minute tz :
  parse_time (runtime env) time_str = Some (hour, minute) ->
  ¬ (0 <= hour <= 23 ∧ 0 <= minute <= 59) ->
  dict_get timezone (get_user_settings user_id (db w)) = Some tz ->
  tz ≠ EmptyString ->
  handle_time_input env user_id time_str w
  = match tz_error env tz with
    | None | Some ValueError => reply_text env user_id msg_bad_format w
    | Some OtherException => reply_text env user_id msg_error (logged log_handler w)
    end.
Proof.
  intros Hparse Hrange Htz Hne.
  unfold handle_time_input, try_except, bind, get_user_settings_m, read_db, ret.
  rewrite Hparse. simpl.
  unfold dict_get in Htz.
  destruct (get_user_settings user_id (db w)) as [row|] eqn:Hrow; [|done].
  simpl in Htz. simpl. rewrite Htz.
  destruct tz as [|c r]; [done|]. simpl.
  unfold new_CronTrigger, astimezone.
  destruct (tz_error env (String c r)) as [[|]|]; simpl; [done|done|].
  destruct ((0 <=? hour) && (hour <=? 23)) eqn:Hh; simpl; [|done].
  destruct ((0 <=? minute) && (minute <=? 59)) eqn:Hm; simpl; [|done].
  lia.
Qed.

(** C4. A time input that reads as an hour and a minute of which one is
    out of range is refused: the store and the job table are left as they
    were, and the handler answers the user with one of the messages of
    refusal, namely the request for a location when the user has no zone,
    the message about the format when the zone library resolves the zone
    or refuses it with a [ValueError], and the general error message when
    it raises another exception; the only further call it may make is a
    second attempt to tell the error. *)
Theorem handle_time_input_out_of_range env user_id time_str w hour minute :
  parse_time (runtime env) time_str = Some (hour, minute) ->
  ¬ (0 <= hour <= 23 ∧ 0 <= minute <= 59) ->
  let w' := (handle_time_input env user_id time_str w).2 in
  let tz := dict_get timezone (get_user_settings user_id (db w)) in
  let msg := if negb (Py.truthy_str tz) then msg_need_location
             else match tz_error env (default EmptyString tz) with
                  | None | Some ValueError => msg_bad_format
                  | Some OtherException => msg_error
                  end in
  db w' = db w ∧ jobs w' = jobs w ∧ files w' = files w
  ∧ msg ∈ refusals
  ∧ (trace w' = (trace w ++ [ReplyText user_id msg])%list
     ∨ trace w' = (trace w ++ [ReplyText user_id msg; ReplyText user_id msg_error])%list).
Proof.
  intros Hparse Hrange. cbv zeta.
  destruct (Py.truthy_str (dict_get timezone (get_user_settings user_id (db w)))) eqn:Hz;
    simpl.
  - apply truthy_str_true in Hz as (tz & Htz & Hne).
    rewrite (handle_time_input_refused env user_id time_str w hour minute tz); try done.
    rewrite Htz. simpl. unfold reply_text.
    destruct (tz_error env tz) as [[|]|]; rewrite telegram_call_eq; simpl;
      (repeat split; [unfold refusals; set_solver|by left]).
  - rewrite (handle_time_input_no_zone env user_id time_str w hour minute); try done.
    destruct (telegram env _ _); simpl.
    + repeat split; [unfold refusals; set_solver|by left].
    + unfold reply_text. rewrite telegram_call_eq. simpl.
      repeat split; [unfold refusals; set_solver|right]. by rewrite <- app_assoc.
Qed.

Lemma handle_time_input_out_of_range_witness :
  time_regex (runtime env_fine) "25:99" = true
  ∧ parse_time (runtime env_fine) "25:99" = Some (25, 99)
  ∧ ¬ (0 <= 25 <= 23 ∧ 0 <= 99 <= 59)
  ∧ db (handle_time_input env_fine 7 "25:99" world_two_times).2 = db world_two_times
  ∧ jobs (handle_time_input env_fine 7 "25:99" world_two_times).2 = jobs world_two_times
  ∧ trace (handle_time_input env_fine 7 "25:99" world_two_times).2
    = (trace world_two_times ++ [ReplyText 7 msg_bad_format])%list.
Proof.
  assert (parse_time (runtime env_fine) "25:99" = Some (25, 99)) as Hparse by reflexivity.
  assert (¬ (0 <= 25 <= 23 ∧ 0 <= 99 <= 59)) as Hrange by lia.
  destruct (handle_time_input_out_of_range env_fine 7 "25:99" world_two_times 25 99
              Hparse Hrange) as (Hdb & Hjobs & _ & _ & _).
  split; [reflexivity|]. split; [exact Hparse|]. split; [exact Hrange|].
  split; [exact Hdb|]. split; [exact Hjobs|]. vm_compute. reflexivity.
Defined.

(** C5. A time input for a user whose stored zone is NULL schedules
    nothing: whatever the text, the store and the job table are left as
    they were; and when the text reads as a time, the handler answers with
    the request for a location, which is its only call when the reply is
    delivered. *)
Theorem handle_time_input_without_timezone env user_id time_str w :
  dict_get timezone (get_user_settings user_id (db w)) = None ->
  let w' := (handle_time_input env user_id time_str w).2 in
  db w' = db w ∧ jobs w' = jobs w
  ∧ (is_Some (parse_time (runtime env) time_str) ->
       (exists rest,
          trace w' = (trace w ++ ReplyText user_id msg_need_location :: rest)%list)
       ∧ (telegram env (length (trace w)) (ReplyText user_id msg_need_location) = true ->
            handle_time_input env user_id time_str w
            = (inr tt, called (ReplyText user_id msg_need_location) w))).
Proof.
  intros Hnone. cbv zeta.
  destruct (parse_time (runtime env) time_str) as [[hour minute]|] eqn:Hparse.
  - rewrite (handle_time_input_no_zone env user_id time_str w hour minute);
      [|done|by rewrite Hnone].
    destruct (telegram env _ _) eqn:Hsent; simpl.
    + split; [done|]. split; [done|]. intros _. split; [by exists []|done].
    + unfold reply_text. rewrite telegram_call_eq. simpl.
      split; [done|]. split; [done|]. intros _. split; [|done].
      eexists. by rewrite <- app_assoc.
  - unfold handle_time_input, try_except, bind. rewrite Hparse. simpl.
    unfold reply_text. rewrite telegram_call_eq. simpl.
    split; [done|]. split; [done|]. by intros [? ?].
Qed.

Lemma handle_time_input_without_timezone_witness :
  dict_get timezone (get_user_settings 7 (db world_no_location)) = None
  ∧ handle_time_input env_fine 7 "08:00" world_no_location
    = (inr tt, called (ReplyText 7 msg_need_location) world_no_location)
  ∧ jobs (handle_time_input env_fine 7 "08:00" world_no_location).2 = []
  ∧ db (handle_time_input env_fine 7 "08:00" world_no_location).2 = store_no_zone.
Proof.
  assert (dict_get timezone (get_user_settings 7 (db world_no_location)) = None) as Hnone
    by reflexivity.
  destruct (handle_time_input_without_timezone env_fine 7 "08:00" world_no_location Hnone)
    as (Hdb & Hjobs & Hreply).
  destruct Hreply as [_ Hsent]; [by eexists|].
  split; [exact Hnone|]. split; [by apply Hsent|]. split; [exact Hjobs|exact Hdb].
Defined.

(** ** The delivery pipeline, step by step *)

Lemma get_weather_eq env lat lon w :
  get_weather env lat lon w
  = match weatherapi env (length (trace w)) lat lon with
    | Some data => (inr (Some data), called (CallWeatherAPI lat lon) w)
    | None => (inr None, logged log_weather (called (CallWeatherAPI lat lon) w))
    end.
Proof.
  unfold get_weather, try_except, bind, call. simpl.
  by destruct (weatherapi env (length (trace w)) lat lon).
Qed.

(** Without coordinates that pass the test the pipeline does nothing. *)
Lemma send_daily_weather_no_coordinates env bot user_id w :
  has_coordinates user_id w = false ->
  send_daily_weather env bot user_id w = (inr tt, w).
Proof.
  unfold has_coordinates. intros Hc.
  unfold send_daily_weather, try_except, bind, get_user_settings_m, read_db, ret.
  simpl. rewrite <- negb_andb, Hc. done.
Qed.

(** With them, the pipeline starts by asking the weather provider. *)
Lemma send_daily_weather_fetches env bot user_id w :
  has_coordinates user_id w = true ->
  send_daily_weather env bot user_id w
  = try_except
      (weather_data <- get_weather env (stored_latitude user_id w)
                         (stored_longitude user_id w);
       if negb (truthy_dict weather_data) then ret tt
       else
         description <- generate_weather_description env (default [] weather_data);
         tts <- gTTS description;
         tts_save env tts weather_file;;
         bot_send_message env bot user_id description;;
         audio <- open_rb weather_file;
         bot_send_audio env bot user_id audio;;
         os_remove weather_file)
      (fun _ => logging_error log_delivery) w.
Proof.
  unfold has_coordinates, stored_latitude, stored_longitude. intros Hc.
  unfold send_daily_weather, try_except, get_user_settings_m, read_db.
  unfold bind at 1 2. unfold ret at 1. simpl.
  rewrite <- negb_andb, Hc. simpl.
  destruct (get_user_settings user_id (db w)) as [row|]; [done|].
  simpl in Hc. done.
Qed.

(** C9. When the weather provider fails during a delivery for a user with
    coordinates, the pipeline returns without an exception after exactly
    one call, the failed request: no message is sent, the failure is
    logged once, and the store, the files and the job table are those of
    before.  As a firing of the user's job this leaves the job in the
    table. *)
Theorem send_daily_weather_provider_fails env bot user_id w :
  has_coordinates user_id w = true ->
  weatherapi env (length (trace w)) (stored_latitude user_id w)
    (stored_longitude user_id w) = None ->
  let request := CallWeatherAPI (stored_latitude user_id w) (stored_longitude user_id w) in
  send_daily_weather env bot user_id w
  = (inr tt, mkWorld (db w) (jobs w) (files w) (log w ++ [log_weather])%list
               (trace w ++ [request])%list)
  ∧ (forall id j, find_job id (jobs w) = Some j -> job_args j = (bot, user_id) ->
       exists w', step env (Firing id) w = Some w'
                  ∧ find_job id (jobs w') = Some j
                  ∧ trace w' = (trace w ++ [request])%list).
Proof.
  intros Hc Hfail. cbv zeta.
  assert (send_daily_weather env bot user_id w
          = (inr tt, mkWorld (db w) (jobs w) (files w) (log w ++ [log_weather])%list
               (trace w ++ [CallWeatherAPI (stored_latitude user_id w)
                              (stored_longitude user_id w)])%list)) as Heq.
  { rewrite send_daily_weather_fetches by done.
    unfold try_except, bind. rewrite get_weather_eq, Hfail. done. }
  split; [exact Heq|].
  intros id j Hj Hargs. eexists. simpl. rewrite Hj, Hargs. simpl. rewrite Heq. simpl.
  by repeat split.
Qed.

Lemma send_daily_weather_provider_fails_witness :
  has_coordinates 7 world_two_times = true
  ∧ send_daily_weather env_no_weather 1%N 7 world_two_times
    = (inr tt, mkWorld (db world_two_times) (jobs world_two_times) (files world_two_times)
                 (log world_two_times ++ [log_weather])%list
                 (trace world_two_times
                  ++ [CallWeatherAPI (Some kyiv_lat) (Some kyiv_lon)])%list)
  ∧ exists w', step env_no_weather (Firing "user_7") world_two_times = Some w'
               ∧ find_job "user_7" (jobs w')
                 = Some (mkJob "user_7" (mkCron 9 30 "Europe/Kyiv") (1%N, 7)).
Proof.
  assert (has_coordinates 7 world_two_times = true) as Hc by (vm_compute; reflexivity).
  assert (weatherapi env_no_weather (length (trace world_two_times))
            (stored_latitude 7 world_two_times) (stored_longitude 7 world_two_times)
          = None) as Hfail by reflexivity.
  destruct (send_daily_weather_provider_fails env_no_weather 1%N 7 world_two_times
              Hc Hfail) as [Heq Hfire].
  split; [exact Hc|]. split; [exact Heq|].
  destruct (Hfire "user_7" (mkJob "user_7" (mkCron 9 30 "Europe/Kyiv") (1%N, 7)))
    as (w' & Hstep & Hjob & _).
  - vm_compute. reflexivity.
  - reflexivity.
  - exists w'. by split.
Defined.

(** ** A profile on the equator *)

(** C6, at the failing input.  Both coordinates are present in the
    profile, the latitude being zero, and the job of the user is in the
    table; yet the pipeline ends where it started, without asking the
    weather provider, and a firing of the job makes no call. *)
Theorem send_daily_weather_latitude_zero :
  run env_fine events_equator initial_world = Some world_equator
  ∧ stored_latitude 7 world_equator = Some (Finite 0)
  ∧ stored_longitude 7 world_equator = Some kyiv_lon
  ∧ find_job "user_7" (jobs world_equator)
    = Some (mkJob "user_7" (mkCron 8 0 "Europe/Kyiv") (1%N, 7))
  ∧ send_daily_weather env_fine 1%N 7 world_equator = (inr tt, world_equator)
  ∧ step env_fine (Firing "user_7") world_equator = Some world_equator.
Proof. repeat split; vm_compute; reflexivity. Qed.

(** ** The speech file *)

(** C7, at the failing input.  When every call succeeds the speech file
    is removed at the end of the delivery.  When the text message fails,
    after the speech file has been written, the pipeline logs the failure
    and returns with the file still in place. *)
Theorem send_daily_weather_leaves_file :
  (weather_file ∉ files world_two_times)
  ∧ (weather_file ∉ files world_delivered)
  ∧ trace world_blocked
    = (trace world_two_times
       ++ [CallWeatherAPI (Some kyiv_lat) (Some kyiv_lon);
           CallGemini [("temp_c", "21")];
           CallGTTS "Sunny";
           SendMessage 1%N 7 "Sunny"])%list
  ∧ log world_blocked = (log world_two_times ++ [log_delivery])%list
  ∧ weather_file ∈ files world_blocked.
Proof.
  split; [|split; [|split; [|split]]].
  - apply (bool_decide_unpack _). vm_compute. exact I.
  - apply (bool_decide_unpack _). vm_compute. exact I.
  - vm_compute. reflexivity.
  - vm_compute. reflexivity.
  - apply (bool_decide_unpack _). vm_compute. exact I.
Qed.

(** ** The two triggers of the pipeline *)

(** C8, as stated, fails.  For a user without coordinates a firing does
    nothing at all, while the request for a forecast is answered with the
    prompt to share a location.  For a user with coordinates the request
    asks the weather provider twice, the firing once. *)
Lemma triggers_differ :
  send_daily_weather env_fine 1%N 7 initial_world = (inr tt, initial_world)
  ∧ handle_instant_forecast env_fine 7 initial_world
    = (inr tt, called (ReplyText 7 msg_send_location_first) initial_world)
  ∧ trace (send_daily_weather env_fine 1%N 7 world_two_times).2
    = (trace world_two_times
       ++ [CallWeatherAPI (Some kyiv_lat) (Some kyiv_lon);
           CallGemini [("temp_c", "21")];
           CallGTTS "Sunny";
           SendMessage 1%N 7 "Sunny";
           SendAudio 1%N 7 weather_file])%list
  ∧ trace (handle_instant_forecast env_fine 7 world_two_times).2
    = (trace world_two_times
       ++ [CallWeatherAPI (Some kyiv_lat) (Some kyiv_lon);
           CallWeatherAPI (Some kyiv_lat) (Some kyiv_lon);
           CallGemini [("temp_c", "21")];
           CallGTTS "Sunny";
           SendMessage 1%N 7 "Sunny";
           SendAudio 1%N 7 weather_file])%list.
Proof. repeat split; vm_compute; reflexivity. Qed.

(** C8, amended.  For a user whose coordinates pass the truth test, the
    request for a forecast first asks the weather provider once more, for
    an answer that it drops, and logs a failure of that request; from the
    world that this leaves it is the pipeline that a firing runs,
    [send_daily_weather] with the bot of the application and the user.  So
    the calls of the request are one request to the weather provider and
    then the calls of a firing in that world, and the store, the job
    table and the files are those of a firing.  For a user with a
    coordinate that is NULL, the request is answered with the prompt to
    share a location, and a firing does nothing. *)
Theorem handle_instant_forecast_runs_pipeline env user_id w :
  (has_coordinates user_id w = true ->
     handle_instant_forecast env user_id w
     = send_daily_weather env (app_bot env) user_id (weather_requested env user_id w)
     ∧ trace (weather_requested env user_id w)
       = (trace w ++ [CallWeatherAPI (stored_latitude user_id w)
                        (stored_longitude user_id w)])%list
     ∧ db (weather_requested env user_id w) = db w
     ∧ jobs (weather_requested env user_id w) = jobs w
     ∧ files (weather_requested env user_id w) = files w
     ∧ log (weather_requested env user_id w)
       = (log w ++ match weatherapi env (length (trace w)) (stored_latitude user_id w)
                           (stored_longitude user_id w) with
                   | Some _ => []
                   | None => [log_weather]
                   end)%list)
  ∧ (stored_latitude user_id w = None ∨ stored_longitude user_id w = None ->
       handle_instant_forecast env user_id w
       = reply_text env user_id msg_send_location_first w
       ∧ send_daily_weather env (app_bot env) user_id w = (inr tt, w)).
Proof.
  split.
  - intros Hc. split.
    + unfold handle_instant_forecast, get_user_settings_m, read_db.
      unfold bind at 1 2. unfold ret at 1. simpl.
      unfold has_coordinates in Hc. rewrite Hc.
      unfold weather_requested, stored_latitude, stored_longitude.
      destruct (get_user_settings user_id (db w)) as [row|]; [|done].
      simpl. unfold bind, ret. rewrite !get_weather_eq.
      by destruct (weatherapi env _ _ _).
    + unfold weather_requested.
      destruct (weatherapi env _ _ _); simpl; by rewrite ?app_nil_r.
  - intros Hnone.
    assert (has_coordinates user_id w = false) as Hc.
    { unfold has_coordinates. unfold stored_latitude, stored_longitude in Hnone.
      destruct Hnone as [-> | ->]; simpl; [done|apply andb_false_r]. }
    split; [|by apply send_daily_weather_no_coordinates].
    unfold handle_instant_forecast, get_user_settings_m, read_db.
    unfold bind at 1 2. unfold ret at 1. simpl.
    unfold has_coordinates in Hc. by rewrite Hc.
Qed.

Lemma handle_instant_forecast_runs_pipeline_witness :
  has_coordinates 7 world_two_times = true
  ∧ stored_latitude 7 initial_world = None
  ∧ handle_instant_forecast env_fine 7 world_two_times
    = send_daily_weather env_fine 1%N 7
        (called (CallWeatherAPI (Some kyiv_lat) (Some kyiv_lon)) world_two_times)
  ∧ handle_instant_forecast env_fine 7 initial_world
    = reply_text env_fine 7 msg_send_location_first initial_world
  ∧ send_daily_weather env_fine 1%N 7 initial_world = (inr tt, initial_world).
Proof.
  assert (has_coordinates 7 world_two_times = true) as Hyes by (vm_compute; reflexivity).
  assert (stored_latitude 7 initial_world = None) as Hno by (vm_compute; reflexivity).
  split; [exact Hyes|]. split; [exact Hno|]. split.
  - exact (proj1 (proj1 (handle_instant_forecast_runs_pipeline env_fine 7 world_two_times)
                    Hyes)).
  - exact (proj2 (handle_instant_forecast_runs_pipeline env_fine 7 initial_world)
             (or_introl Hno)).
Defined.

(** * Further properties of the code *)

(** ** Sharing a location *)

Lemma get_timezone_eq env lat lon w :
  get_timezone env lat lon w
  = (inr (resolved_timezone env lat lon w),
     match timezonedb env (length (trace w)) lat lon with
     | Some _ => called (CallTimezoneDB lat lon) w
     | None => logged log_timezone (called (CallTimezoneDB lat lon) w)
     end).
Proof.
  unfold get_timezone, resolved_timezone, try_except, bind, call. simpl.
  by destruct (timezonedb env (length (trace w)) lat lon) as [[zone|]|].
Qed.

Lemma handle_location_eq env user_id lat lon w :
  handle_location env user_id lat lon w
  = let zone := resolved_timezone env lat lon w in
    let lg := match timezonedb env (length (trace w)) lat lon with
              | Some _ => log w
              | None => (log w ++ [log_timezone])%list
              end in
    match bound zone with
    | Some tz =>
        (if telegram env (S (length (trace w)))
              (ReplyText user_id (msg_location_saved (Py.format zone)))
         then inr tt else inl OtherException,
         mkWorld (save_user_settings user_id (Some lat) (Some lon) None tz (db w))
           (jobs w) (files w) lg
           (trace w ++ [CallTimezoneDB lat lon;
                        ReplyText user_id (msg_location_saved (Py.format zone))])%list)
    | None =>
        (inl OtherException,
         mkWorld (db w) (jobs w) (files w) lg (trace w ++ [CallTimezoneDB lat lon])%list)
    end.
Proof.
  unfold handle_location, bind. rewrite get_timezone_eq. cbv zeta.
  destruct (resolved_timezone env lat lon w) as [|zone|shown [text|]];
    destruct (timezonedb env (length (trace w)) lat lon) as [data|];
    unfold save_user_settings_value, save_user_settings_m, write_db, reply_text, raise;
    rewrite ?telegram_call_eq; cbn -[save_user_settings msg_location_saved];
    rewrite ?length_app, <- ?app_assoc; simpl; rewrite ?Nat.add_1_r;
    try done; by destruct (telegram env _ _).
Qed.


(** A [zoneName] that is [null]: the reply shows [None], a new profile
    has its coordinates and no zone, and an old profile keeps its zone. *)
Example handle_location_null_zone :
  handle_location env_null_zone 9 (Py.Real kyiv_lat) (Py.Real kyiv_lon) initial_world
  = (inr tt,
     mkWorld {[ 9 := mkRow (Some kyiv_lat) (Some kyiv_lon) None None ]} [] ∅ []
       [CallTimezoneDB (Py.Real kyiv_lat) (Py.Real kyiv_lon);
        ReplyText 9 (msg_location_saved "None")])
  ∧ get_user_settings 7
      (db (handle_location env_null_zone 7 (Py.Real warsaw_lat) (Py.Real warsaw_lon)
             world_two_times).2)
    = Some (mkRow (Some warsaw_lat) (Some warsaw_lon) (Some "09:30")
              (Some "Europe/Kyiv")).
Proof. split; vm_compute; reflexivity. Qed.

(** ** Time input, accepted or not *)

Lemma handle_time_input_unparsed env user_id time_str w :
  parse_time (runtime env) time_str = None ->
  handle_time_input env user_id time_str w = reply_text env user_id msg_bad_format w.
Proof.
  intros Hparse. unfold handle_time_input, try_except, raise. by rewrite Hparse.
Qed.

Lemma handle_time_input_unknown_zone env user_id time_str w hour minute tz :
  parse_time (runtime env) time_str = Some (hour, minute) ->
  dict_get timezone (get_user_settings user_id (db w)) = Some tz ->
  tz ≠ EmptyString ->
  known_tz env tz = false ->
  handle_time_input env user_id time_str w
  = match tz_error env tz with
    | Some ValueError => reply_text env user_id msg_bad_format w
    | _ => reply_text env user_id msg_error (logged log_handler w)
    end.
Proof.
  intros Hparse Htz Hne Hknown.
  unfold handle_time_input, try_except, bind, get_user_settings_m, read_db, ret.
  rewrite Hparse. simpl.
  unfold dict_get in Htz.
  destruct (get_user_settings user_id (db w)) as [row|] eqn:Hrow; [|done].
  simpl in Htz. simpl. rewrite Htz.
  destruct tz as [|c r]; [done|]. simpl.
  unfold new_CronTrigger, astimezone. unfold known_tz in Hknown.
  by destruct (tz_error env (String c r)) as [[|]|].
Qed.

Lemma accepted_true env user_id time_str w :
  accepted env user_id time_str w = true <->
  exists hour minute tz,
    parse_time (runtime env) time_str = Some (hour, minute)
    ∧ dict_get timezone (get_user_settings user_id (db w)) = Some tz
    ∧ tz ≠ EmptyString ∧ known_tz env tz = true
    ∧ 0 <= hour <= 23 ∧ 0 <= minute <= 59.
Proof.
  unfold accepted. split.
  - destruct (parse_time (runtime env) time_str) as [[hour minute]|]; [|done].
    destruct (dict_get timezone _) as [tz|]; [|done].
    rewrite !andb_true_iff. intros [[[[[Ht Hk] ?] ?] ?] ?].
    exists hour, minute, tz. repeat split; try done; try lia.
    by destruct tz.
  - intros (hour & minute & tz & -> & -> & Hne & Hk & Hh & Hm).
    rewrite !andb_true_iff. repeat split; try done; try lia.
    by destruct tz.
Qed.

Ltac in_refusals := apply list_elem_of_In; simpl; tauto.

(** The three ways in which a time input is turned down. *)
Lemma handle_time_input_rejected_cases env user_id time_str w :
  accepted env user_id time_str w = false ->
  handle_time_input env user_id time_str w = reply_text env user_id msg_bad_format w
  ∨ handle_time_input env user_id time_str w
    = reply_text env user_id msg_error (logged log_handler w)
  ∨ handle_time_input env user_id time_str w
    = if telegram env (length (trace w)) (ReplyText user_id msg_need_location)
      then (inr tt, called (ReplyText user_id msg_need_location) w)
      else reply_text env user_id msg_error
             (logged log_handler (called (ReplyText user_id msg_need_location) w)).
Proof.
  intros Hrej.
  destruct (parse_time (runtime env) time_str) as [[hour minute]|] eqn:Hparse;
    [|left; by apply handle_time_input_unparsed].
  destruct (Py.truthy_str (dict_get timezone (get_user_settings user_id (db w))))
    eqn:Hz; [|right; right; by eapply handle_time_input_no_zone].
  apply truthy_str_true in Hz as (tz & Htz & Hne).
  destruct (known_tz env tz) eqn:Hknown.
  - left. rewrite (handle_time_input_refused env user_id time_str w hour minute tz),
      (known_tz_true _ _ Hknown); try done.
    intros [Hh Hm].
    assert (accepted env user_id time_str w = true); [|congruence].
    apply accepted_true. by exists hour, minute, tz.
  - rewrite (handle_time_input_unknown_zone env user_id time_str w hour minute tz);
      try done.
    destruct (tz_error env tz) as [[|]|]; [by left|by right; left|by right; left].
Qed.

Lemma handle_time_input_rejected_state env user_id time_str w :
  accepted env user_id time_str w = false ->
  db (handle_time_input env user_id time_str w).2 = db w
  ∧ jobs (handle_time_input env user_id time_str w).2 = jobs w.
Proof.
  intros Hrej.
  destruct (handle_time_input_rejected_cases env user_id time_str w Hrej)
    as [->|[->| ->]]; unfold reply_text; rewrite ?telegram_call_eq; try done.
  by destruct (telegram env _ _).
Qed.

(** X2. A time input that does not pass every test changes nothing: the
    store, the job table and the files are left as they were, the first
    call of the handler is a reply with one of the three messages of
    refusal, and every further call is a reply with the general error
    message.  This covers the text that does not read as two integers,
    the user without a true zone, the zone that is not known, and the
    hour or minute out of range. *)
Theorem handle_time_input_rejected env user_id time_str w :
  accepted env user_id time_str w = false ->
  let w' := (handle_time_input env user_id time_str w).2 in
  db w' = db w ∧ jobs w' = jobs w ∧ files w' = files w
  ∧ exists msg rest,
      msg ∈ refusals
      ∧ trace w' = (trace w ++ ReplyText user_id msg :: rest)%list
      ∧ Forall (fun c => c = ReplyText user_id msg_error) rest.
Proof.
  intros Hrej. cbv zeta.
  destruct (handle_time_input_rejected_cases env user_id time_str w Hrej)
    as [->|[->| ->]]; unfold reply_text; rewrite ?telegram_call_eq; simpl.
  - repeat split. exists msg_bad_format, []. unfold refusals.
    split; [in_refusals|]. by split.
  - repeat split. exists msg_error, []. unfold refusals.
    split; [in_refusals|]. by split.
  - destruct (telegram env _ _); rewrite ?telegram_call_eq; simpl.
    + repeat split. exists msg_need_location, []. unfold refusals.
      split; [in_refusals|]. by split.
    + repeat split. exists msg_need_location, [ReplyText user_id msg_error].
      unfold refusals. split; [in_refusals|]. split; [by rewrite <- app_assoc|].
      by repeat constructor.
Qed.

Lemma handle_time_input_rejected_witness :
  accepted env_fine 7 "8h00" world_two_times = false
  ∧ accepted env_fine 9 "08:00" world_two_times = false
  ∧ db (handle_time_input env_fine 7 "8h00" world_two_times).2 = db world_two_times
  ∧ jobs (handle_time_input env_fine 9 "08:00" world_two_times).2 = jobs world_two_times.
Proof.
  assert (accepted env_fine 7 "8h00" world_two_times = false) as H1
    by (vm_compute; reflexivity).
  assert (accepted env_fine 9 "08:00" world_two_times = false) as H2
    by (vm_compute; reflexivity).
  split; [exact H1|]. split; [exact H2|]. split.
  - exact (proj1 (handle_time_input_rejected env_fine 7 "8h00" world_two_times H1)).
  - exact (proj1 (proj2 (handle_time_input_rejected env_fine 9 "08:00" world_two_times H2))).
Defined.

(** With a runtime that reads them, a time in Arabic-Indic digits is
    routed as a time, stored as it was typed and scheduled, and the
    process restarts with it. *)
Example arabic_indic_time :
  time_regex (runtime env_arabic) "١٢:٣٠" = true
  ∧ accepted env_arabic 7 "١٢:٣٠" world_two_times = true
  ∧ jobs (dispatch env_arabic (Text 7 "١٢:٣٠") world_two_times).2
    = [mkJob "user_7" (mkCron 12 30 "Europe/Kyiv") (1%N, 7)]
  ∧ get_user_settings 7 (db (dispatch env_arabic (Text 7 "١٢:٣٠") world_two_times).2)
    = Some (mkRow (Some kyiv_lat) (Some kyiv_lon) (Some "١٢:٣٠") (Some "Europe/Kyiv"))
  ∧ jobs <$> step env_arabic Restart
               (dispatch env_arabic (Text 7 "١٢:٣٠") world_two_times).2
    = Some [mkJob "user_7" (mkCron 12 30 "Europe/Kyiv") (1%N, 7)].
Proof. repeat split; vm_compute; reflexivity. Qed.

(** X3. A time input that passes every test is stored as it was typed:
    the profile of the user then holds the text as notification time and
    the coordinates and the zone of before, the job of the user is put
    into the table with the hour and the minute that the text reads as
    and the stored zone, and the first call of the handler is the reply
    that confirms the time. *)
Theorem handle_time_input_accepted env user_id time_str w :
  accepted env user_id time_str w = true ->
  let w' := (handle_time_input env user_id time_str w).2 in
  exists hour minute row tz,
    parse_time (runtime env) time_str = Some (hour, minute)
    ∧ get_user_settings user_id (db w) = Some row
    ∧ timezone row = Some tz
    ∧ get_user_settings user_id (db w')
      = Some (mkRow (latitude row) (longitude row) (Some time_str) (Some tz))
    ∧ jobs w' = add_job (mkJob (user_job_id user_id) (mkCron hour minute tz)
                           (app_bot env, user_id)) (jobs w)
    ∧ files w' = files w
    ∧ exists rest,
        trace w' = (trace w ++ ReplyText user_id (msg_time_set time_str) :: rest)%list.
Proof.
  intros Hacc. cbv zeta.
  apply accepted_true in Hacc as (hour & minute & tz & Hparse & Htz & Hne & Hk & Hh & Hm).
  destruct (handle_time_input_scheduled env user_id time_str w hour minute tz)
    as [Hjobs Hdb]; try done.
  unfold dict_get in Htz.
  destruct (get_user_settings user_id (db w)) as [row|] eqn:Hrow; [|done].
  simpl in Htz. exists hour, minute, row, tz.
  split; [done|]. split; [done|]. split; [done|]. split.
  { rewrite Hdb, save_lookup_same, Hrow. simpl. by rewrite Htz. }
  split; [done|].
  unfold handle_time_input, try_except, bind, get_user_settings_m, read_db, ret.
  rewrite Hparse. simpl. rewrite Hrow. simpl. rewrite Htz.
  destruct tz as [|c r]; [done|]. simpl.
  unfold new_CronTrigger, astimezone. rewrite (known_tz_true _ _ Hk).
  assert ((0 <=? hour) && (hour <=? 23) = true) as -> by lia.
  assert ((0 <=? minute) && (minute <=? 59) = true) as -> by lia.
  simpl. unfold reply_text. rewrite !telegram_call_eq. simpl.
  destruct (telegram env _ _); simpl.
  - split; [done|]. by exists [].
  - rewrite telegram_call_eq. simpl. split; [done|].
    eexists. by rewrite <- app_assoc.
Qed.

Lemma handle_time_input_accepted_witness :
  accepted env_fine 7 "21:15" world_two_times = true
  ∧ get_user_settings 7 (db (handle_time_input env_fine 7 "21:15" world_two_times).2)
    = Some (mkRow (Some kyiv_lat) (Some kyiv_lon) (Some "21:15") (Some "Europe/Kyiv")).
Proof.
  assert (accepted env_fine 7 "21:15" world_two_times = true) as Hacc
    by (vm_compute; reflexivity).
  split; [exact Hacc|].
  destruct (handle_time_input_accepted env_fine 7 "21:15" world_two_times Hacc)
    as (hour & minute & row & tz & _ & Hrow & Htz & Hstored & _).
  rewrite Hstored.
  assert (get_user_settings 7 (db world_two_times)
          = Some (mkRow (Some kyiv_lat) (Some kyiv_lon) (Some "09:30")
                    (Some "Europe/Kyiv"))) as Hbefore by (vm_compute; reflexivity).
  rewrite Hbefore in Hrow. injection Hrow as <-.
  injection Htz as <-. reflexivity.
Defined.

(** ** The delivery pipeline, whatever the collaborators do *)

Lemma untouched_refl w : untouched w w.
Proof. by repeat split. Qed.

Lemma untouched_trans w1 w2 w3 : untouched w1 w2 -> untouched w2 w3 -> untouched w1 w3.
Proof.
  intros (Hd & Hj & Ht & Hl) (Hd' & Hj' & Ht' & Hl').
  repeat split; try congruence; by etrans.
Qed.

Ltac solve_untouched :=
  first [apply untouched_refl | apply untouched_trans
        | intros; intros ?; unfold untouched; simpl;
          repeat split; first [reflexivity | apply prefix_app_r; reflexivity]].

Ltac solve_files :=
  rewrite ?elem_of_difference, ?elem_of_union, ?elem_of_singleton; tauto.

Ltac file_is_there :=
  rewrite bool_decide_eq_true_2 by (apply elem_of_union_l, elem_of_singleton; reflexivity).

Lemma generate_weather_description_eq env data w :
  generate_weather_description env data w
  = match gemini env (length (trace w)) data with
    | Some text => (inr text, called (CallGemini data) w)
    | None => (inr fallback_description,
               logged log_description (called (CallGemini data) w))
    end.
Proof.
  unfold generate_weather_description, try_except, bind, call. simpl.
  by destruct (gemini env (length (trace w)) data).
Qed.

Lemma tts_save_eq env text file w :
  tts_save env text file w
  = (if gtts env (length (trace w)) text then inr tt else inl OtherException,
     mkWorld (db w) (jobs w) ({[file]} ∪ files w) (log w)
       (trace w ++ [CallGTTS text])%list).
Proof.
  unfold tts_save, bind, write_files, call. simpl.
  by destruct (gtts env (length (trace w)) text).
Qed.

(** The files other than the speech file are those of before. *)
Lemma send_daily_weather_files env bot user_id w file :
  file ≠ weather_file ->
  file ∈ files (send_daily_weather env bot user_id w).2 <-> file ∈ files w.
Proof.
  intros Hne. destruct (has_coordinates user_id w) eqn:Hc;
    [|by rewrite send_daily_weather_no_coordinates].
  rewrite send_daily_weather_fetches by done.
  unfold try_except, bind. rewrite get_weather_eq.
  destruct (weatherapi env _ _ _) as [[|kv data]|]; simpl; try done.
  rewrite generate_weather_description_eq.
  destruct (gemini env _ _) as [[|c text]|]; simpl; try done;
    rewrite tts_save_eq; destruct (gtts env _ _); simpl; try solve_files;
    unfold bot_send_message; rewrite telegram_call_eq;
    destruct (telegram env _ _); simpl; try solve_files;
    unfold open_rb, file_exists, bind; simpl; file_is_there; simpl;
    unfold bot_send_audio; rewrite telegram_call_eq;
    destruct (telegram env _ _); simpl; try solve_files;
    unfold os_remove, file_exists, bind; simpl; file_is_there; simpl;
    solve_files.
Qed.

Lemma send_daily_weather_untouched env bot user_id w :
  untouched w (send_daily_weather env bot user_id w).2.
Proof.
  revert w. apply (preserves_send_daily_weather untouched); solve_untouched.
Qed.

(** X4. The delivery pipeline is contained: whatever the profile and
    whatever the collaborators do, [send_daily_weather] returns without an
    exception, leaves the store and the job table as they were, only adds
    to the calls and to the log, and touches no file but the speech
    file. *)
Theorem send_daily_weather_contained env bot user_id w :
  let r := send_daily_weather env bot user_id w in
  r.1 = inr tt
  ∧ untouched w r.2
  ∧ (forall file, file ≠ weather_file -> file ∈ files r.2 <-> file ∈ files w).
Proof.
  cbv zeta. split; [|split].
  - unfold send_daily_weather, try_except.
    by destruct (bind _ _ w) as [[e|[]] w1].
  - apply send_daily_weather_untouched.
  - intros file Hne. by apply send_daily_weather_files.
Qed.

Lemma send_daily_weather_contained_witness :
  (send_daily_weather env_blocked 1%N 7 world_two_times).1 = inr tt
  ∧ db (send_daily_weather env_blocked 1%N 7 world_two_times).2 = db world_two_times
  ∧ ("weather_bot.db" ∈ files (send_daily_weather env_blocked 1%N 7 world_two_times).2
     <-> "weather_bot.db" ∈ files world_two_times).
Proof.
  destruct (send_daily_weather_contained env_blocked 1%N 7 world_two_times)
    as (Hret & (Hdb & _) & Hfiles).
  split; [exact Hret|]. split; [exact Hdb|]. apply Hfiles. discriminate.
Defined.

(** X5. A delivery in which the later collaborators succeed: for a user
    with coordinates, when the weather provider answers with an object
    that is not empty, the narration (the text of the model, or the fixed
    text when the model fails, a failure that is logged) is not empty,
    and gTTS and the two calls of Telegram succeed, the pipeline makes
    exactly five calls, in the order weather, model, speech, text message,
    audio message, sends that narration to the user, and ends with the
    speech file removed. *)
Theorem send_daily_weather_delivers env bot user_id w data :
  let t := length (trace w) in
  let lat := stored_latitude user_id w in
  let lon := stored_longitude user_id w in
  let text := narration env (S t) data in
  has_coordinates user_id w = true ->
  weatherapi env t lat lon = Some data ->
  data ≠ [] ->
  text ≠ EmptyString ->
  gtts env (S (S t)) text = true ->
  telegram env (S (S (S t))) (SendMessage bot user_id text) = true ->
  telegram env (S (S (S (S t)))) (SendAudio bot user_id weather_file) = true ->
  send_daily_weather env bot user_id w
  = (inr tt,
     mkWorld (db w) (jobs w) (files w ∖ {[weather_file]})
       (match gemini env (S t) data with
        | Some _ => log w
        | None => (log w ++ [log_description])%list
        end)
       (trace w ++ [CallWeatherAPI lat lon; CallGemini data; CallGTTS text;
                    SendMessage bot user_id text;
                    SendAudio bot user_id weather_file])%list).
Proof.
  cbv zeta. unfold narration. intros Hc Hweather Hdata Htext Hgtts Hmsg Haudio.
  assert (({[weather_file]} ∪ files w) ∖ {[weather_file]}
          = files w ∖ {[weather_file]}) as Hfiles.
  { apply set_eq. intros x.
    rewrite !elem_of_difference, elem_of_union, elem_of_singleton. tauto. }
  rewrite send_daily_weather_fetches by done.
  unfold try_except, bind. rewrite get_weather_eq, Hweather.
  destruct data as [|kv data]; [done|]. simpl.
  rewrite generate_weather_description_eq. simpl.
  rewrite length_app, Nat.add_1_r.
  destruct (gemini env (S (length (trace w))) (kv :: data)) as [text|]; simpl in *.
  - destruct text as [|c text]; [done|]. simpl.
    rewrite tts_save_eq. simpl. rewrite !length_app. simpl.
    rewrite !Nat.add_1_r, Hgtts.
    unfold bot_send_message. rewrite telegram_call_eq. simpl.
    rewrite !length_app. simpl. rewrite !Nat.add_1_r, Hmsg.
    unfold open_rb, file_exists, bind. simpl. file_is_there. simpl.
    unfold bot_send_audio. rewrite telegram_call_eq. simpl.
    rewrite !length_app. simpl. rewrite !Nat.add_1_r, Haudio.
    unfold os_remove, file_exists, bind. simpl. file_is_there. simpl.
    rewrite Hfiles, <- !app_assoc. done.
  - rewrite tts_save_eq. simpl. rewrite !length_app. simpl.
    rewrite !Nat.add_1_r, Hgtts.
    unfold bot_send_message. rewrite telegram_call_eq. simpl.
    rewrite !length_app. simpl. rewrite !Nat.add_1_r, Hmsg.
    unfold open_rb, file_exists, bind. simpl. file_is_there. simpl.
    unfold bot_send_audio. rewrite telegram_call_eq. simpl.
    rewrite !length_app. simpl. rewrite !Nat.add_1_r, Haudio.
    unfold os_remove, file_exists, bind. simpl. file_is_there. simpl.
    rewrite Hfiles, <- !app_assoc. done.
Qed.

Lemma send_daily_weather_delivers_witness :
  has_coordinates 7 world_two_times = true
  ∧ narration env_no_model (S (length (trace world_two_times))) [("temp_c", "21")]
    = fallback_description
  ∧ send_daily_weather env_no_model 1%N 7 world_two_times
    = (inr tt,
       mkWorld (db world_two_times) (jobs world_two_times)
         (files world_two_times ∖ {[weather_file]})
         (log world_two_times ++ [log_description])%list
         (trace world_two_times
          ++ [CallWeatherAPI (Some kyiv_lat) (Some kyiv_lon);
              CallGemini [("temp_c", "21")];
              CallGTTS fallback_description;
              SendMessage 1%N 7 fallback_description;
              SendAudio 1%N 7 weather_file])%list).
Proof.
  assert (has_coordinates 7 world_two_times = true) as Hc by (vm_compute; reflexivity).
  split; [exact Hc|]. split; [reflexivity|].
  apply (send_daily_weather_delivers env_no_model 1%N 7 world_two_times
           [("temp_c", "21")]); try reflexivity; try exact Hc; discriminate.
Defined.

(** X6. An empty answer of the weather provider ends the delivery
    quietly: for a user with coordinates the pipeline returns after the
    one request, sends nothing and, unlike after a failed request, logs
    nothing. *)
Theorem send_daily_weather_empty_answer env bot user_id w :
  has_coordinates user_id w = true ->
  weatherapi env (length (trace w)) (stored_latitude user_id w)
    (stored_longitude user_id w) = Some [] ->
  send_daily_weather env bot user_id w
  = (inr tt, called (CallWeatherAPI (stored_latitude user_id w)
                       (stored_longitude user_id w)) w).
Proof.
  intros Hc Hempty. rewrite send_daily_weather_fetches by done.
  unfold try_except, bind. by rewrite get_weather_eq, Hempty.
Qed.

Lemma send_daily_weather_empty_answer_witness :
  has_coordinates 7 world_two_times = true
  ∧ send_daily_weather env_empty_weather 1%N 7 world_two_times
    = (inr tt, called (CallWeatherAPI (Some kyiv_lat) (Some kyiv_lon)) world_two_times).
Proof.
  assert (has_coordinates 7 world_two_times = true) as Hc by (vm_compute; reflexivity).
  split; [exact Hc|].
  exact (send_daily_weather_empty_answer env_empty_weather 1%N 7 world_two_times
           Hc eq_refl).
Defined.

(** ** Starting the process *)

Lemma restore_row_success env bot r w x w1 :
  restore_row env bot r w = (inr x, w1) -> row_ok env r.2.
Proof.
  unfold restore_row. intros Hrun ts tz Hts Htsne Htz Htzne.
  rewrite Hts, Htz in Hrun.
  destruct ts as [|c ts]; [done|]. destruct tz as [|c' tz]; [done|].
  simpl in Hrun.
  destruct (parse_time _ (String c ts)) as [[hour minute]|]; [|done].
  unfold bind, lift, new_CronTrigger, astimezone in Hrun. unfold known_tz.
  destruct (tz_error env (String c' tz)); [done|]. split; [done|].
  exists hour, minute. split; [done|].
  destruct ((0 <=? hour) && (hour <=? 23)) eqn:Hh; simpl in Hrun; [|done].
  destruct ((0 <=? minute) && (minute <=? 59)) eqn:Hm; simpl in Hrun; [|done].
  lia.
Qed.

Lemma for_each_success_rows_ok env bot l w x w' :
  for_each (restore_row env bot) l w = (inr x, w') ->
  Forall (fun r => row_ok env r.2) l.
Proof.
  revert w. induction l as [|r l IH]; intros w Hrun; [by constructor|].
  simpl in Hrun. unfold bind in Hrun.
  destruct (restore_row env bot r w) as [[e|u] w1] eqn:Hrow; [done|].
  constructor; [by eapply restore_row_success|by eapply IH].
Qed.

(** The table that reconciliation builds from an accepted store. *)
Lemma setup_scheduler_rebuilt env d fs lg tr :
  store_ok env d ->
  exists js,
    setup_scheduler env (mkWorld d [] fs lg tr) = (inr tt, mkWorld d js fs lg tr)
    ∧ jobs_ok js
    ∧ forall j, j ∈ js <->
        exists user_id row, d !! user_id = Some row
                            ∧ scheduled_for (runtime env) (app_bot env) (user_id, row) j.
Proof.
  intros Hok.
  destruct (for_each_restore_row env (app_bot env) (select_scheduled d)
              (mkWorld d [] fs lg tr)) as (js & Heq & Hnd & Hin).
  { apply select_scheduled_NoDup. }
  { apply Forall_forall. intros r Hr. apply select_scheduled_rows in Hr as [Hr _].
    by eapply Hok. }
  { simpl. apply NoDup_nil_2. }
  simpl in *. exists js. split.
  { unfold setup_scheduler, restore_jobs, bind, read_db. simpl. exact Heq. }
  split.
  { pose proof (restore_jobs_jobs_ok env (app_bot env) (mkWorld d [] fs lg tr)
                  jobs_ok_nil) as Hjobs.
    unfold restore_jobs, bind, read_db in Hjobs. simpl in Hjobs.
    by rewrite Heq in Hjobs. }
  intros j. rewrite Hin. split.
  - intros [(r & Hr & Hs)|[Hj _]]; [|by apply elem_of_nil in Hj].
    apply select_scheduled_rows in Hr as [Hr _].
    exists r.1, r.2. split; [done|]. by destruct r.
  - intros (user_id & row & Hrow & Hs). left. exists (user_id, row).
    split; [|done]. apply select_scheduled_rows. split; [done|].
    destruct Hs as (ts & ? & ? & ? & Hts & _). simpl in *. by rewrite Hts.
Qed.

Lemma restart_store_ok env w w' :
  step env Restart w = Some w' -> store_ok env (db w).
Proof.
  simpl. intros Hstep user_id row Hrow.
  destruct (setup_scheduler env _) as [[e|x] w1] eqn:Hrun; [done|].
  unfold setup_scheduler, restore_jobs, bind, read_db in Hrun. simpl in Hrun.
  apply for_each_success_rows_ok in Hrun.
  destruct (notification_time row) as [ts|] eqn:Hts.
  - rewrite Forall_forall in Hrun.
    apply (Hrun (user_id, row)). apply select_scheduled_rows. simpl.
    split; [done|]. by rewrite Hts.
  - intros ts tz Hts'. congruence.
Qed.

(** The world after a restart that succeeds. *)
Lemma step_restart env w w' :
  step env Restart w = Some w' ->
  db w' = db w ∧ jobs_ok (jobs w')
  ∧ forall j, j ∈ jobs w' <->
      exists user_id row, db w !! user_id = Some row
                          ∧ scheduled_for (runtime env) (app_bot env) (user_id, row) j.
Proof.
  intros Hstep. pose proof (restart_store_ok env w w' Hstep) as Hok.
  destruct (setup_scheduler_rebuilt env (db w) (files w) (log w) (trace w) Hok)
    as (js & Heq & Hjobs & Hin).
  simpl in Hstep. rewrite Heq in Hstep. by injection Hstep as <-.
Qed.

(** X7. The start of the process has no handler for the exceptions of
    reconciliation: a restart succeeds exactly when every stored profile
    with a notification time and a zone, both true, has a zone that is
    known and a time that reads as an hour and a minute of the day; one
    profile that is not so makes the start fail. *)
Theorem restart_succeeds_iff env w :
  is_Some (step env Restart w) <-> store_ok env (db w).
Proof.
  split.
  - intros [w' Hstep]. by eapply restart_store_ok.
  - intros Hok. simpl.
    destruct (setup_scheduler_rebuilt env (db w) (files w) (log w) (trace w) Hok)
      as (js & -> & _). by eexists.
Qed.

Lemma restart_succeeds_iff_witness :
  store_ok env_fine store_three
  ∧ is_Some (step env_fine Restart (mkWorld store_three [] ∅ [] [])).
Proof.
  split; [exact store_three_ok|].
  exact (proj2 (restart_succeeds_iff env_fine (mkWorld store_three [] ∅ [] []))
           store_three_ok).
Defined.

Lemma jobs_of_member user_id js j :
  jobs_ok js -> j ∈ js -> (job_args j).2 = user_id -> jobs_of user_id js = [j].
Proof.
  intros Hok Hj Hu.
  pose proof (jobs_ok_at_most_one user_id js Hok) as Hlen.
  assert (In j (jobs_of user_id js)) as Hin.
  { apply filter_In. split; [by apply list_elem_of_In|].
    unfold for_user. by apply bool_decide_eq_true. }
  destruct (jobs_of user_id js) as [|k [|k' r]]; simpl in *.
  - done.
  - by destruct Hin as [->|[]].
  - lia.
Qed.

Lemma parse_time_nonempty rt time_str hour minute :
  parse_time rt time_str = Some (hour, minute) -> time_str ≠ EmptyString.
Proof. by intros Hparse ->. Qed.

(** X8. A schedule survives a restart.  In a world that the process has
    reached, after a time input that passes every test, a restart that
    succeeds leaves the user with exactly one job, the one that the
    time input installed: same id, hour, minute, zone and arguments. *)
Theorem schedule_survives_restart env user_id time_str w w'' :
  reachable env w ->
  accepted env user_id time_str w = true ->
  step env Restart (handle_time_input env user_id time_str w).2 = Some w'' ->
  jobs_of user_id (jobs w'')
  = jobs_of user_id (jobs (handle_time_input env user_id time_str w).2)
  ∧ length (jobs_of user_id (jobs w'')) = 1%nat.
Proof.
  intros Hreach Hacc Hstep.
  apply accepted_true in Hacc as (hour & minute & tz & Hparse & Htz & Hne & Hk & Hh & Hm).
  destruct (handle_time_input_scheduled env user_id time_str w hour minute tz)
    as [Hjobs Hdb]; try done.
  set (j := mkJob (user_job_id user_id) (mkCron hour minute tz) (app_bot env, user_id)).
  fold j in Hjobs.
  assert (jobs_of user_id (jobs (handle_time_input env user_id time_str w).2) = [j])
    as Hbefore.
  { rewrite Hjobs. apply jobs_of_add_job. by apply (reachable_jobs_ok env). }
  destruct (step_restart env _ w'' Hstep) as (_ & Hok & Hin).
  assert (jobs_of user_id (jobs w'') = [j]) as Hafter.
  { apply jobs_of_member; [done| |done].
    apply Hin. eexists user_id, _. split.
    - rewrite Hdb. apply save_lookup_same.
    - exists time_str, tz, hour, minute. simpl. rewrite Htz.
      repeat split; try done. by eapply parse_time_nonempty. }
  by rewrite Hafter, Hbefore.
Qed.

Lemma schedule_survives_restart_witness :
  reachable env_fine world_two_times
  ∧ accepted env_fine 7 "21:15" world_two_times = true
  ∧ jobs_of 7 (jobs (default initial_world
                       (step env_fine Restart
                          (handle_time_input env_fine 7 "21:15" world_two_times).2)))
    = [mkJob "user_7" (mkCron 21 15 "Europe/Kyiv") (1%N, 7)].
Proof.
  assert (reachable env_fine world_two_times) as Hreach
    by (exists events_two_times; vm_compute; reflexivity).
  assert (accepted env_fine 7 "21:15" world_two_times = true) as Hacc
    by (vm_compute; reflexivity).
  split; [exact Hreach|]. split; [exact Hacc|].
  destruct (step env_fine Restart (handle_time_input env_fine 7 "21:15" world_two_times).2)
    as [w''|] eqn:Hstep; [|vm_compute in Hstep; discriminate Hstep].
  change (default initial_world (Some w'')) with w''.
  destruct (schedule_survives_restart env_fine 7 "21:15" world_two_times w''
              Hreach Hacc Hstep) as [-> _].
  vm_compute. reflexivity.
Defined.

(** ** What one update does to the store and to the job table *)

Lemma handle_instant_forecast_untouched env user_id w :
  untouched w (handle_instant_forecast env user_id w).2.
Proof.
  revert w. apply (preserves_handle_instant_forecast untouched); solve_untouched.
Qed.

Lemma reply_text_untouched env user_id text w :
  untouched w (reply_text env user_id text w).2.
Proof.
  unfold reply_text. rewrite telegram_call_eq. unfold untouched. simpl.
  repeat split; first [reflexivity | apply prefix_app_r; reflexivity].
Qed.

(** An update leaves the store and the job table alone, or it is a
    location and rewrites the profile of its user, or it is a time input
    that passes every test and rewrites the profile and the job of its
    user. *)
Lemma dispatch_effect env upd w :
  let user_id := update_user upd in
  let w' := (dispatch env upd w).2 in
  (db w' = db w ∧ jobs w' = jobs w)
  ∨ (exists lat lon tz,
       upd = Location user_id lat lon
       ∧ bound (resolved_timezone env lat lon w) = Some tz
       ∧ jobs w' = jobs w
       ∧ db w' = save_user_settings user_id (Some lat) (Some lon) None tz (db w))
  ∨ (exists time_str hour minute tz,
       upd = Text user_id time_str
       ∧ time_regex (runtime env) time_str = true
       ∧ accepted env user_id time_str w = true
       ∧ parse_time (runtime env) time_str = Some (hour, minute)
       ∧ dict_get timezone (get_user_settings user_id (db w)) = Some tz
       ∧ 0 <= hour <= 23 ∧ 0 <= minute <= 59
       ∧ jobs w' = add_job (mkJob (user_job_id user_id) (mkCron hour minute tz)
                              (app_bot env, user_id)) (jobs w)
       ∧ db w' = save_user_settings user_id None None (Some time_str) None (db w)).
Proof.
  cbv zeta. destruct upd as [user_id name|user_id lat lon|user_id text]; simpl.
  - left. destruct (String.eqb name "start"); [|done].
    destruct (reply_text_untouched env user_id msg_start w) as (Hd & Hj & _).
    by split.
  - rewrite handle_location_eq. cbv zeta.
    destruct (bound (resolved_timezone env lat lon w)) as [tz|] eqn:Hb; [|by left].
    right. left. by exists lat, lon, tz.
  - destruct (String.eqb text button_time_setup).
    { left. destruct (reply_text_untouched env user_id msg_enter_time w) as (Hd & Hj & _).
      by split. }
    destruct (time_regex (runtime env) text) eqn:Hre.
    { destruct (accepted env user_id text w) eqn:Hacc.
      - right. right.
        pose proof Hacc as Hacc'.
        apply accepted_true in Hacc'
          as (hour & minute & tz & Hparse & Htz & Hne & Hk & Hh & Hm).
        destruct (handle_time_input_scheduled env user_id text w hour minute tz)
          as [Hjobs Hdb]; try done.
        exists text, hour, minute, tz. repeat split; try done; lia.
      - left. by apply handle_time_input_rejected_state. }
    destruct (String.eqb text button_forecast); [|by left].
    left. destruct (handle_instant_forecast_untouched env user_id w) as (Hd & Hj & _).
    by split.
Qed.

(** One event leaves the store and the job table alone, or it is a
    restart and leaves the store alone, or it is an update. *)
Lemma step_untouched_cases env ev w w' :
  step env ev w = Some w' ->
  (db w' = db w ∧ jobs w' = jobs w)
  ∨ (ev = Restart ∧ db w' = db w)
  ∨ (exists upd, ev = Incoming upd ∧ w' = (dispatch env upd w).2).
Proof.
  destruct ev as [upd|id|].
  - simpl. intros [= <-]. right. right. by exists upd.
  - simpl. destruct (find_job id (jobs w)) as [j|]; intros [= <-]; [|by left].
    left. destruct (send_daily_weather_untouched env (job_args j).1 (job_args j).2 w)
      as (Hd & Hj & _). by split.
  - intros Hstep. right. left. split; [done|].
    by destruct (step_restart env w w' Hstep) as (Hd & _).
Qed.

(** ** Profiles of the worlds that the process reaches *)

Lemma store_sound_location rt user_id lat lon tz d :
  store_sound rt d ->
  store_sound rt (save_user_settings user_id (Some lat) (Some lon) None tz d).
Proof.
  intros Hs u row Hrow. destruct (decide (u = user_id)) as [->|Hne].
  - pose proof (save_lookup_same user_id (Some lat) (Some lon) None tz d) as Hl.
    unfold get_user_settings in Hl at 1. rewrite Hrow in Hl. injection Hl as ->.
    unfold get_user_settings, dict_get.
    destruct (d !! user_id) as [old|] eqn:Hold.
    + destruct (Hs user_id old Hold) as [Hz Ht]. split; [|exact Ht].
      unfold timed_has_zone. simpl. intros Hset. by destruct tz; [|apply Hz].
    + split.
      * unfold timed_has_zone. simpl. by intros [? ?].
      * by intros ts.
  - pose proof (save_lookup_other user_id u (Some lat) (Some lon) None tz d Hne) as Hl.
    unfold get_user_settings in Hl. rewrite Hrow in Hl. symmetry in Hl.
    by apply (Hs u row).
Qed.

Lemma store_sound_time rt user_id time_str hour minute tz d :
  store_sound rt d ->
  dict_get timezone (get_user_settings user_id d) = Some tz ->
  parse_time rt time_str = Some (hour, minute) ->
  0 <= hour <= 23 -> 0 <= minute <= 59 ->
  store_sound rt (save_user_settings user_id None None (Some time_str) None d).
Proof.
  intros Hs Htz Hparse Hh Hm u row Hrow. destruct (decide (u = user_id)) as [->|Hne].
  - pose proof (save_lookup_same user_id None None (Some time_str) None d) as Hl.
    unfold get_user_settings in Hl at 1. rewrite Hrow in Hl. injection Hl as ->.
    split.
    + unfold timed_has_zone. simpl. intros _. by rewrite Htz.
    + intros ts [= <-]. by exists hour, minute.
  - pose proof (save_lookup_other user_id u None None (Some time_str) None d Hne) as Hl.
    unfold get_user_settings in Hl. rewrite Hrow in Hl. symmetry in Hl.
    by apply (Hs u row).
Qed.

Lemma step_store_sound env ev w w' :
  step env ev w = Some w' ->
  store_sound (runtime env) (db w) -> store_sound (runtime env) (db w').
Proof.
  intros Hstep Hs.
  destruct (step_untouched_cases env ev w w' Hstep)
    as [[-> _]|[[_ ->]|(upd & _ & ->)]]; try done.
  destruct (dispatch_effect env upd w)
    as [[-> _]|[(lat & lon & tz & _ & _ & _ & ->)
               |(t & hour & minute & tz & _ & _ & _ & Hparse & Htz & Hh & Hm & _ & ->)]].
  - done.
  - by apply store_sound_location.
  - by eapply store_sound_time.
Qed.

Lemma run_store_sound env evs w w' :
  run env evs w = Some w' ->
  store_sound (runtime env) (db w) -> store_sound (runtime env) (db w').
Proof.
  revert w. induction evs as [|ev evs IH]; simpl; intros w.
  - by intros [= <-].
  - destruct (step env ev w) as [w1|] eqn:Hstep; [|done].
    intros Hrun Hs. eapply IH; [exact Hrun|]. by eapply step_store_sound.
Qed.



(** ** Jobs of the worlds that the process reaches *)

Lemma in_step_location env user_id lat lon tz d j :
  in_step env d j ->
  in_step env (save_user_settings user_id (Some lat) (Some lon) None tz d) j.
Proof.
  intros (row & ts & Hrow & Hts & Hparse & Hbot & Hid).
  destruct (decide ((job_args j).2 = user_id)) as [Hu|Hne].
  - eexists _, ts. split.
    + rewrite Hu. apply save_lookup_same.
    + simpl. unfold get_user_settings, dict_get. rewrite <- Hu, Hrow. by simpl.
  - exists row, ts. split; [|done].
    pose proof (save_lookup_other user_id (job_args j).2 (Some lat) (Some lon) None
                  tz d Hne) as Hl.
    unfold get_user_settings in Hl. by rewrite Hl.
Qed.

Lemma in_step_time env user_id time_str hour minute tz d js :
  jobs_ok js ->
  Forall (in_step env d) js ->
  parse_time (runtime env) time_str = Some (hour, minute) ->
  Forall (in_step env (save_user_settings user_id None None (Some time_str) None d))
    (add_job (mkJob (user_job_id user_id) (mkCron hour minute tz)
                (app_bot env, user_id)) js).
Proof.
  intros [Hnd _] Hall Hparse. apply Forall_forall. intros k Hk.
  apply elem_of_add_job in Hk; [|done]. destruct Hk as [->|[Hk Hne]].
  - eexists _, time_str. split; [apply save_lookup_same|]. by simpl.
  - rewrite Forall_forall in Hall.
    destruct (Hall k Hk) as (row & ts & Hrow & Hts & Hp & Hbot & Hid).
    exists row, ts. split; [|done].
    assert ((job_args k).2 ≠ user_id) as Hu.
    { intros Hu. apply Hne. simpl. by rewrite Hid, Hu. }
    pose proof (save_lookup_other user_id (job_args k).2 None None (Some time_str)
                  None d Hu) as Hl.
    unfold get_user_settings in Hl. by rewrite Hl.
Qed.

Lemma scheduled_for_in_step env d user_id row j :
  d !! user_id = Some row ->
  scheduled_for (runtime env) (app_bot env) (user_id, row) j ->
  in_step env d j.
Proof.
  intros Hrow (ts & tz & hour & minute & Hts & _ & _ & _ & Hparse & ->).
  by exists row, ts.
Qed.

Lemma step_in_step env ev w w' :
  step env ev w = Some w' ->
  jobs_ok (jobs w) ->
  Forall (in_step env (db w)) (jobs w) ->
  Forall (in_step env (db w')) (jobs w').
Proof.
  intros Hstep Hok Hall.
  destruct (step_untouched_cases env ev w w' Hstep)
    as [[-> ->]|[[-> _]|(upd & _ & ->)]]; [done| |].
  - destruct (step_restart env w w' Hstep) as (Hdb & _ & Hin).
    apply Forall_forall. intros j Hj. apply Hin in Hj as (u & row & Hrow & Hs).
    rewrite Hdb. by eapply scheduled_for_in_step.
  - destruct (dispatch_effect env upd w)
      as [[-> ->]|[(lat & lon & tz & _ & _ & -> & ->)
                 |(t & hour & minute & tz & _ & _ & _ & Hparse & _ & _ & _ & -> & ->)]].
    + done.
    + eapply Forall_impl; [exact Hall|]. intros j. apply in_step_location.
    + by apply in_step_time.
Qed.

Lemma run_in_step env evs w w' :
  run env evs w = Some w' ->
  jobs_ok (jobs w) ->
  Forall (in_step env (db w)) (jobs w) ->
  Forall (in_step env (db w')) (jobs w').
Proof.
  revert w. induction evs as [|ev evs IH]; simpl; intros w.
  - by intros [= <-].
  - destruct (step env ev w) as [w1|] eqn:Hstep; [|done].
    intros Hrun Hok Hall. eapply IH; [exact Hrun| |].
    + by eapply step_jobs_ok.
    + by eapply step_in_step.
Qed.

(** X10. The time of a job never drifts from the store.  Every job of a
    world that the process has reached is bound to the bot of the
    application and to a user whose profile is stored with a notification
    time, and the hour and the minute of the job are those that the stored
    time reads as. *)
Theorem reachable_jobs_in_step env w j :
  reachable env w ->
  j ∈ jobs w ->
  exists row time_str,
    get_user_settings (job_args j).2 (db w) = Some row
    ∧ notification_time row = Some time_str
    ∧ parse_time (runtime env) time_str
      = Some (cron_hour (job_trigger j), cron_minute (job_trigger j))
    ∧ (job_args j).1 = app_bot env.
Proof.
  intros [evs Hrun] Hj.
  assert (Forall (in_step env (db w)) (jobs w)) as Hall.
  { eapply run_in_step; [exact Hrun|apply jobs_ok_nil|apply Forall_nil_2]. }
  rewrite Forall_forall in Hall.
  destruct (Hall j Hj) as (row & ts & Hrow & Hts & Hparse & Hbot & _).
  by exists row, ts.
Qed.

Lemma reachable_jobs_in_step_witness :
  reachable env_travel world_before_restart
  ∧ mkJob "user_7" (mkCron 8 0 "Europe/Kyiv") (1%N, 7) ∈ jobs world_before_restart
  ∧ exists row time_str,
      get_user_settings 7 (db world_before_restart) = Some row
      ∧ notification_time row = Some time_str
      ∧ parse_time (runtime env_travel) time_str = Some (8, 0)
      ∧ 1%N = app_bot env_travel.
Proof.
  assert (reachable env_travel world_before_restart) as Hreach
    by (exists events_travel; vm_compute; reflexivity).
  assert (mkJob "user_7" (mkCron 8 0 "Europe/Kyiv") (1%N, 7) ∈ jobs world_before_restart)
    as Hj by (vm_compute; apply list_elem_of_here).
  split; [exact Hreach|]. split; [exact Hj|].
  exact (reachable_jobs_in_step env_travel world_before_restart _ Hreach Hj).
Defined.

(** X11. In a world that the process has reached, a restart can fail for
    one reason only, a stored zone that the zone database does not know:
    when every stored zone that is not empty is known, the restart
    succeeds. *)
Theorem reachable_restart_succeeds env w :
  reachable env w ->
  (forall user_id row tz,
     get_user_settings user_id (db w) = Some row ->
     timezone row = Some tz -> tz ≠ EmptyString -> known_tz env tz = true) ->
  is_Some (step env Restart w).
Proof.
  intros [evs Hrun] Hzones.
  assert (store_sound (runtime env) (db w)) as Hs.
  { eapply run_store_sound; [exact Hrun|]. intros u r Hr. simpl in Hr.
    by rewrite lookup_empty in Hr. }
  assert (store_ok env (db w)) as Hok.
  { intros user_id row Hrow ts tz Hts Htsne Htz Htzne. split.
    - by eapply Hzones.
    - destruct (Hs user_id row Hrow) as [_ Ht]. by apply Ht. }
  simpl.
  destruct (setup_scheduler_rebuilt env (db w) (files w) (log w) (trace w) Hok)
    as (js & -> & _). by eexists.
Qed.

Lemma zones_known_two_times user_id row tz :
  get_user_settings user_id (db world_two_times) = Some row ->
  timezone row = Some tz -> tz ≠ EmptyString -> known_tz env_fine tz = true.
Proof.
  intros Hrow Htz _.
  assert (db world_two_times
          = {[ 7 := mkRow (Some kyiv_lat) (Some kyiv_lon) (Some "09:30")
                      (Some "Europe/Kyiv") ]}) as Hdb by (vm_compute; reflexivity).
  unfold get_user_settings in Hrow. rewrite Hdb in Hrow.
  apply lookup_singleton_Some in Hrow as [_ <-].
  simpl in Htz. injection Htz as <-. reflexivity.
Defined.

Lemma reachable_restart_succeeds_witness :
  reachable env_fine world_two_times
  ∧ is_Some (step env_fine Restart world_two_times).
Proof.
  assert (reachable env_fine world_two_times) as Hreach
    by (exists events_two_times; vm_compute; reflexivity).
  split; [exact Hreach|].
  exact (reachable_restart_succeeds env_fine world_two_times Hreach
           zones_known_two_times).
Defined.

(** ** One user's update and the other users *)

Lemma filter_update_job (P : Job -> bool) j js :
  P j = false ->
  (forall k, k ∈ js -> job_id k = job_id j -> P k = false) ->
  List.filter P (update_job j js) = List.filter P js.
Proof.
  intros Hj. induction js as [|k js IH]; intros Hsame; [done|]. simpl.
  destruct (has_id (job_id j) k) eqn:Hid; simpl.
  - apply has_id_true in Hid. rewrite Hj, (Hsame k); [done|by left|done].
  - rewrite IH; [done|]. intros k' Hk'. apply Hsame. by right.
Qed.

Lemma jobs_of_add_job_other trigger bot user_id other js :
  jobs_ok js -> other ≠ user_id ->
  jobs_of other (add_job (mkJob (user_job_id user_id) trigger (bot, user_id)) js)
  = jobs_of other js.
Proof.
  intros [Hnd Hall] Hne. unfold jobs_of, add_job.
  assert (for_user other (mkJob (user_job_id user_id) trigger (bot, user_id)) = false)
    as Hj by (unfold for_user; by apply bool_decide_eq_false).
  destruct (existsb _ js).
  - apply filter_update_job; [done|]. intros k Hk Hid. simpl in Hid.
    rewrite Forall_forall in Hall. rewrite (Hall k Hk) in Hid.
    apply user_job_id_inj in Hid.
    unfold for_user. apply bool_decide_eq_false. congruence.
  - rewrite List.filter_app. simpl. rewrite Hj. apply app_nil_r.
Qed.

(** X12. An update of one user leaves every other user alone: in a world
    that the process has reached, whatever the update and whatever the
    collaborators answer, the profile and the job of every user other
    than the sender are after the update what they were before. *)
Theorem update_leaves_others env upd w other :
  reachable env w ->
  other ≠ update_user upd ->
  get_user_settings other (db (dispatch env upd w).2) = get_user_settings other (db w)
  ∧ jobs_of other (jobs (dispatch env upd w).2) = jobs_of other (jobs w).
Proof.
  intros Hreach Hne. apply reachable_jobs_ok in Hreach.
  destruct (dispatch_effect env upd w)
    as [[-> ->]|[(lat & lon & tz & _ & _ & -> & ->)
               |(t & hour & minute & tz & _ & _ & _ & _ & _ & _ & _ & -> & ->)]].
  - done.
  - split; [by apply save_lookup_other|done].
  - split; [by apply save_lookup_other|by apply jobs_of_add_job_other].
Qed.

Lemma update_leaves_others_witness :
  reachable env_fine world_two_times
  ∧ jobs_of 7 (jobs (dispatch env_fine (Text 8 "10:00") world_two_times).2)
    = jobs_of 7 (jobs world_two_times)
  ∧ get_user_settings 7 (db (dispatch env_fine (Location 8 (Py.Real warsaw_lat) (Py.Real warsaw_lon))
                               world_two_times).2)
    = get_user_settings 7 (db world_two_times).
Proof.
  assert (reachable env_fine world_two_times) as Hreach
    by (exists events_two_times; vm_compute; reflexivity).
  assert (7 ≠ 8) as Hne by discriminate.
  split; [exact Hreach|]. split.
  - exact (proj2 (update_leaves_others env_fine (Text 8 "10:00") world_two_times 7
                    Hreach Hne)).
  - exact (proj1 (update_leaves_others env_fine (Location 8 (Py.Real warsaw_lat) (Py.Real warsaw_lon))
                    world_two_times 7 Hreach Hne)).
Defined.

(** ** Who writes the store and the job table *)

(** X13. The store and the job table have few writers.  An event that
    is neither a location update nor a time input that passes every test
    leaves the store as it was; an event that is neither a restart nor
    such a time input leaves the job table as it was.  So a firing, a
    request for a forecast, a command, a press of the settings button and
    a time input that is turned down change neither. *)
Theorem only_writers env ev w w' :
  step env ev w = Some w' ->
  (writes_store env ev w = false -> db w' = db w)
  ∧ (writes_jobs env ev w = false -> jobs w' = jobs w).
Proof.
  intros Hstep.
  destruct (step_untouched_cases env ev w w' Hstep)
    as [[Hd Hj]|[[-> Hd]|(upd & -> & ->)]].
  - by split.
  - by split.
  - destruct (dispatch_effect env upd w)
      as [[Hd Hj]|[(lat & lon & tz & Hupd & _ & Hj & _)
                 |(t & hour & minute & tz & Hupd & Hre & Hacc & _)]].
    + by split.
    + split; [|done]. by rewrite Hupd.
    + rewrite Hupd. simpl. rewrite Hre, Hacc. by split.
Qed.

Lemma only_writers_witness :
  step env_fine (Firing "user_7") world_two_times
  = Some (send_daily_weather env_fine 1%N 7 world_two_times).2
  ∧ db (send_daily_weather env_fine 1%N 7 world_two_times).2 = db world_two_times
  ∧ jobs (send_daily_weather env_fine 1%N 7 world_two_times).2 = jobs world_two_times.
Proof.
  assert (step env_fine (Firing "user_7") world_two_times
          = Some (send_daily_weather env_fine 1%N 7 world_two_times).2) as Hstep
    by (vm_compute; reflexivity).
  destruct (only_writers env_fine (Firing "user_7") world_two_times _ Hstep)
    as [Hdb Hjobs].
  split; [exact Hstep|]. split; [exact (Hdb eq_refl)|exact (Hjobs eq_refl)].
Defined.

(** ** Text that is routed as a time *)

Lemma ascii_not_button text :
  Py.isascii text = true -> String.eqb text button_time_setup = false.
Proof.
  intros Hascii. destruct (String.eqb_spec text button_time_setup) as [->|]; [|done].
  vm_compute in Hascii. discriminate Hascii.
Qed.

(** X14. An ASCII text of one or two digits, a colon and two digits is
    handled as a time input, and it always reads as an hour and a minute:
    the router hands it to [handle_time_input], [int] accepts both parts,
    and the hour and the minute are between 0 and 99.  So the only test
    that such a text can fail for its form is the range test of the
    trigger.  (For a text with other decimal digits the pattern and [int]
    are those of the runtime.) *)
Theorem routed_time_input_parses env user_id text w :
  Py.isascii text = true ->
  time_regex (runtime env) text = true ->
  dispatch env (Text user_id text) w = handle_time_input env user_id text w
  ∧ exists hour minute,
      parse_time (runtime env) text = Some (hour, minute)
      ∧ 0 <= hour <= 99 ∧ 0 <= minute <= 99.
Proof.
  intros Hascii Hre. split.
  - simpl. by rewrite (ascii_not_button text Hascii), Hre.
  - by apply time_regex_parses.
Qed.

Lemma routed_time_input_parses_witness :
  Py.isascii "7:45" = true
  ∧ time_regex (runtime env_fine) "7:45" = true
  ∧ dispatch env_fine (Text 7 "7:45") world_two_times
    = handle_time_input env_fine 7 "7:45" world_two_times
  ∧ exists hour minute,
      parse_time (runtime env_fine) "7:45" = Some (hour, minute)
      ∧ 0 <= hour <= 99 ∧ 0 <= minute <= 99.
Proof.
  assert (Py.isascii "7:45" = true) as Hascii by reflexivity.
  assert (time_regex (runtime env_fine) "7:45" = true) as Hre by reflexivity.
  split; [exact Hascii|]. split; [exact Hre|].
  exact (routed_time_input_parses env_fine 7 "7:45" world_two_times Hascii Hre).
Defined.

(** ** Upserts, one after another *)

(** X15. Two upserts for one user amount to one upsert with, for each
    field, the later argument when it is given and the earlier one
    otherwise; so an upsert made twice is the upsert made once; and
    upserts for two different users can be made in either order. *)
Theorem save_user_settings_composes user_id lat1 lon1 time1 tz1 lat2 lon2 time2 tz2 d :
  save_user_settings user_id lat2 lon2 time2 tz2
    (save_user_settings user_id lat1 lon1 time1 tz1 d)
  = save_user_settings user_id (or_else lat2 lat1) (or_else lon2 lon1)
      (or_else time2 time1) (or_else tz2 tz1) d
  ∧ save_user_settings user_id lat1 lon1 time1 tz1
      (save_user_settings user_id lat1 lon1 time1 tz1 d)
    = save_user_settings user_id lat1 lon1 time1 tz1 d
  ∧ (forall other, other ≠ user_id ->
       save_user_settings user_id lat2 lon2 time2 tz2
         (save_user_settings other lat1 lon1 time1 tz1 d)
       = save_user_settings other lat1 lon1 time1 tz1
           (save_user_settings user_id lat2 lon2 time2 tz2 d)).
Proof.
  split; [|split].
  - unfold save_user_settings at 1. rewrite save_lookup_same.
    unfold save_user_settings. rewrite insert_insert_eq. f_equal. simpl.
    f_equal.
    + by destruct lat2, lat1 as [[x|]|]; simpl; rewrite ?sqlite_real_read.
    + by destruct lon2, lon1 as [[x|]|]; simpl; rewrite ?sqlite_real_read.
    + by destruct time2, time1.
    + by destruct tz2, tz1.
  - unfold save_user_settings at 1. rewrite save_lookup_same.
    unfold save_user_settings at 1. rewrite insert_insert_eq.
    unfold save_user_settings. f_equal. simpl.
    f_equal.
    + by destruct lat1 as [[x|]|]; simpl; rewrite ?sqlite_real_read.
    + by destruct lon1 as [[x|]|]; simpl; rewrite ?sqlite_real_read.
    + by destruct time1.
    + by destruct tz1.
  - intros other Hne.
    unfold save_user_settings at 1 3.
    rewrite (save_lookup_other other user_id) by done.
    rewrite (save_lookup_other user_id other) by done.
    unfold save_user_settings. by rewrite insert_insert_ne.
Qed.

Lemma save_user_settings_composes_witness :
  save_user_settings 7 None None (Some "08:00") None
    (save_user_settings 7 (Some (Py.Real kyiv_lat)) (Some (Py.Real kyiv_lon)) None (Some "Europe/Kyiv") ∅)
  = save_user_settings 7 (Some (Py.Real kyiv_lat)) (Some (Py.Real kyiv_lon)) (Some "08:00")
      (Some "Europe/Kyiv") ∅
  ∧ save_user_settings 7 None None (Some "08:00") None
      (save_user_settings 8 (Some (Py.Real warsaw_lat)) (Some (Py.Real warsaw_lon)) None None ∅)
    = save_user_settings 8 (Some (Py.Real warsaw_lat)) (Some (Py.Real warsaw_lon)) None None
        (save_user_settings 7 None None (Some "08:00") None ∅).
Proof.
  split.
  - exact (proj1 (save_user_settings_composes 7 (Some (Py.Real kyiv_lat)) (Some (Py.Real kyiv_lon)) None
                    (Some "Europe/Kyiv") None None (Some "08:00") None ∅)).
  - apply (proj2 (proj2 (save_user_settings_composes 7 (Some (Py.Real warsaw_lat)) (Some (Py.Real warsaw_lon)) None None None None (Some "08:00") None ∅))).
    discriminate.
Defined.

(** ** From a location to a schedule *)

(** X16. Sharing a location opens the way to a schedule.  After a
    location update, whatever the store held before, a time input that
    reads as an hour and a minute of the day is accepted as soon as the
    zone that was resolved is stored as a text that is known and not
    empty; the profile then holds the coordinates as SQLite stores them,
    the zone and the time as typed, and the job of the user fires at that
    hour and minute of that zone. *)
Theorem location_then_time env user_id lat lon time_str hour minute tz w :
  let w1 := (handle_location env user_id lat lon w).2 in
  let w2 := (handle_time_input env user_id time_str w1).2 in
  bound (resolved_timezone env lat lon w) = Some (Some tz) ->
  parse_time (runtime env) time_str = Some (hour, minute) ->
  0 <= hour <= 23 -> 0 <= minute <= 59 ->
  tz ≠ EmptyString -> known_tz env tz = true ->
  accepted env user_id time_str w1 = true
  ∧ get_user_settings user_id (db w2)
    = Some (mkRow (sqlite_real (Some lat)) (sqlite_real (Some lon))
              (Some time_str) (Some tz))
  ∧ jobs w2 = add_job (mkJob (user_job_id user_id) (mkCron hour minute tz)
                         (app_bot env, user_id)) (jobs w).
Proof.
  cbv zeta. intros Hzone Hparse Hh Hm Hne Hknown.
  assert (db (handle_location env user_id lat lon w).2
          = save_user_settings user_id (Some lat) (Some lon) None (Some tz) (db w)
          ∧ jobs (handle_location env user_id lat lon w).2 = jobs w) as [Hdb1 Hjobs1]
    by (rewrite handle_location_eq; cbv zeta; by rewrite Hzone).
  assert (dict_get timezone
            (get_user_settings user_id (db (handle_location env user_id lat lon w).2))
          = Some tz) as Htz
    by (by rewrite Hdb1, save_lookup_same).
  split.
  { apply accepted_true. by exists hour, minute, tz. }
  destruct (handle_time_input_scheduled env user_id time_str
              (handle_location env user_id lat lon w).2 hour minute tz)
    as [Hjobs2 Hdb2]; try done.
  split.
  - rewrite Hdb2, save_lookup_same, Hdb1, save_lookup_same. done.
  - by rewrite Hjobs2, Hjobs1.
Qed.

Lemma location_then_time_witness :
  parse_time (runtime env_travel) "06:30" = Some (6, 30)
  ∧ bound (resolved_timezone env_travel (Py.Real warsaw_lat) (Py.Real warsaw_lon)
             initial_world)
    = Some (Some "Europe/Warsaw")
  ∧ jobs (handle_time_input env_travel 9 "06:30"
            (handle_location env_travel 9 (Py.Real warsaw_lat) (Py.Real warsaw_lon)
               initial_world).2).2
    = add_job (mkJob (user_job_id 9) (mkCron 6 30 "Europe/Warsaw") (1%N, 9)) [].
Proof.
  assert (parse_time (runtime env_travel) "06:30" = Some (6, 30)) as Hparse
    by reflexivity.
  assert (bound (resolved_timezone env_travel (Py.Real warsaw_lat) (Py.Real warsaw_lon)
                   initial_world)
          = Some (Some "Europe/Warsaw")) as Hzone by reflexivity.
  split; [exact Hparse|]. split; [exact Hzone|].
  apply (location_then_time env_travel 9 (Py.Real warsaw_lat) (Py.Real warsaw_lon)
           "06:30" 6 30 "Europe/Warsaw" initial_world Hzone Hparse);
    [lia|lia|discriminate|reflexivity].
Defined.

(** * Fields of the store, once set *)












